(** * CFOHelper: the twelve-month forecast engine

    Shallow embedding of [generateForecast], of the four aggregate reducers
    and of the usage counter of [src/CFOHelper.tsx], with the properties
    of the forecast that the specification states.

    The forecast is embedded twice.

    - Over exact rationals: a [number] is a [Q], [Math.floor] is [Qfloor],
      and the literals [0.15] and [0.2] are 15/100 and 2/10.  Equality of
      numbers is [Qeq] (written [==]).  This embedding carries what does
      not depend on rounding: which value enters which expression, the
      order of the steps, the labels, and the facts restricted to the
      positions of the sliders, where every value is an integer far below
      2^53.
    - Over binary64, in [Module Binary64]: a [number] is the kernel's
      [float], NaN and the infinities included, and every operation rounds
      as in JavaScript.  This embedding carries what depends on rounding;
      its universal statements are either structural or range over finite
      sets of inputs that are checked by evaluation. *)

From Stdlib Require Import QArith Qround ZArith List String Bool Arith Lia Lqa.
From Stdlib Require Import Setoid Morphisms.
From Stdlib Require Import Uint63 PrimFloat.
From Stdlib Require Import Ascii.
From Stdlib Require DecimalString DecimalPos.
From Stdlib Require FloatOps SpecFloat.
Import ListNotations.

Local Open Scope Q_scope.

(** ** Data model *)

Abbreviation number := Q (only parsing).

Definition Math_floor (x : number) : number := inject_Z (Qfloor x).

(** [interface ForecastData] *)
Record ForecastData : Type := mkForecastData {
  month : string;
  revenue : number;
  expenses : number;
  cashFlow : number;
  headcount : number
}.

(** The state of the component: the three sliders and the usage counter. *)
Record Component : Type := mkComponent {
  spending : number;
  pricing : number;
  hiring : number;
  usageCount : number
}.

(** The [useState] defaults. *)
Definition initialComponent : Component :=
  {| spending := 50000; pricing := 100; hiring := 10; usageCount := 0 |}.

(** ** The forecast loop *)

Definition months : list string :=
  ["Jan"; "Feb"; "Mar"; "Apr"; "May"; "Jun";
   "Jul"; "Aug"; "Sep"; "Oct"; "Nov"; "Dec"]%string.

(** The variables the [forEach] callback closes over and mutates. *)
Record Loop : Type := mkLoop {
  data : list ForecastData;
  currentCustomers : number;
  currentHeadcount : number
}.

Definition growthRate : number := 15 # 100.

(** [index % 3 === 0 && index > 0] *)
Definition hiringMonth (index : nat) : bool :=
  Nat.eqb (Nat.modulo index 3) 0 && Nat.ltb 0 index.

Section Engine.

(** The slider values read by the closure. *)
Variables spending_ pricing_ hiring_ : number.

(** One call of the callback [(month, index) => { ... }]. *)
Definition forEach_body (st : Loop) (month_ : string) (index : nat) : Loop :=
  let customerGrowth := Math_floor (currentCustomers st * growthRate) in
  let currentCustomers' := currentCustomers st + customerGrowth in
  let revenue_ := currentCustomers' * pricing_ in
  let employeeCost := currentHeadcount st * 5000 in
  let totalExpenses_ := spending_ + employeeCost in
  let currentHeadcount' :=
    if hiringMonth index
    then currentHeadcount st + Math_floor (hiring_ * (2 # 10))
    else currentHeadcount st in
  let cashFlow_ := revenue_ - totalExpenses_ in
  {| data := data st ++ [ {| month := month_;
                             revenue := revenue_;
                             expenses := totalExpenses_;
                             cashFlow := cashFlow_;
                             headcount := currentHeadcount' |} ];
     currentCustomers := currentCustomers';
     currentHeadcount := currentHeadcount' |}.

(** [Array.prototype.forEach], with the index it hands to the callback. *)
Fixpoint forEach (l : list string) (index : nat) (st : Loop) : Loop :=
  match l with
  | [] => st
  | m :: l' => forEach l' (S index) (forEach_body st m index)
  end.

Definition loopStart : Loop :=
  {| data := []; currentCustomers := 100; currentHeadcount := hiring_ |}.

(** The closure's variables after the first [n] calls of the callback. *)
Definition loopAfter (n : nat) : Loop :=
  forEach (firstn n months) 0%nat loopStart.

Definition generateForecast : list ForecastData :=
  data (forEach months 0%nat loopStart).

End Engine.

(** ** Aggregates *)

(** [forecastData.reduce((sum, item) => sum + item.revenue, 0)] *)
Definition totalRevenue (forecastData : list ForecastData) : number :=
  fold_left (fun sum item => sum + revenue item) forecastData 0.

Definition totalExpenses (forecastData : list ForecastData) : number :=
  fold_left (fun sum item => sum + expenses item) forecastData 0.

Definition netCashFlow (forecastData : list ForecastData) : number :=
  totalRevenue forecastData - totalExpenses forecastData.

Definition burnRate (forecastData : list ForecastData) : number :=
  totalExpenses forecastData / 12.

(** [const forecastData = generateForecast()] inside the component. *)
Definition forecastData (c : Component) : list ForecastData :=
  generateForecast (spending c) (pricing c) (hiring c).

(** ** Definitions used to state the properties *)

(** The customer base after [n] calls of the callback. *)
Fixpoint customersAfter (n : nat) : number :=
  match n with
  | O => 100
  | S k => customersAfter k + Math_floor (customersAfter k * growthRate)
  end.

(** The head count held by the closure when the callback is entered at
    [index], that is after the hiring events of all earlier indices. *)
Fixpoint headcountBefore (hiring_ : number) (index : nat) : number :=
  match index with
  | O => hiring_
  | S k =>
      if hiringMonth k
      then headcountBefore hiring_ k + Math_floor (hiring_ * (2 # 10))
      else headcountBefore hiring_ k
  end.

(** The record pushed at [index]. *)
Definition recordAt (spending_ pricing_ hiring_ : number)
    (month_ : string) (index : nat) : ForecastData :=
  {| month := month_;
     revenue := customersAfter (S index) * pricing_;
     expenses := spending_ + headcountBefore hiring_ index * 5000;
     cashFlow := customersAfter (S index) * pricing_
                 - (spending_ + headcountBefore hiring_ index * 5000);
     headcount := headcountBefore hiring_ (S index) |}.

(** Binary64 numbers, to compare the two floors of the loop with the ones
    JavaScript computes. *)
Definition double_of_Z (z : Z) : float := PrimFloat.of_uint63 (Uint63.of_Z z).

(** [Math.floor x] is [m], for a binary64 [x]: [m <= x < m + 1]. *)
Definition floor_is (x : float) (m : Z) : bool :=
  PrimFloat.leb (double_of_Z m) x && PrimFloat.ltb x (double_of_Z (m + 1)).

(** [Math.floor(currentCustomers * growthRate)] in binary64 against the
    model, at customer count [c]. *)
#[warnings="-inexact-float"]
Definition customerGrowth_agrees (c : Z) : bool :=
  floor_is (PrimFloat.mul (double_of_Z c) 0.15%float)
           (Qfloor (inject_Z c * growthRate)).

(** [Math.floor(hiring * 0.2)] in binary64 against the model. *)
#[warnings="-inexact-float"]
Definition hiringStep_agrees (h : Z) : bool :=
  floor_is (PrimFloat.mul (double_of_Z h) 0.2%float)
           (Qfloor (inject_Z h * (2 # 10))).

(** Sum of a list of numbers. *)
Definition Qsum (l : list number) : number := fold_right Qplus 0 l.

(** ** The summary panel and the sliders *)



Definition isInteger (x : number) : bool := Qeq_bool x (inject_Z (Qfloor x)).

(** The values an [<input type="range" min max step>] can hand to its
    [onChange]: [min], [min + step], ... up to [max]. *)
Definition onSlider (min max step : Z) (x : number) : bool :=
  isInteger x
  && Z.leb min (Qfloor x) && Z.leb (Qfloor x) max
  && Z.eqb ((Qfloor x - min) mod step) 0.

(** The three sliders of the controls panel, with their [min], [max] and
    [step] attributes. *)
Definition sliderRange (c : Component) : bool :=
  onSlider 10000 200000 5000 (spending c)
  && onSlider 10 1000 10 (pricing c)
  && onSlider 1 50 1 (hiring c).

(** The five numbers a record carries lie within [-bound, bound] and are
    integers. *)
Definition integerWithin (bound : Z) (x : number) : Prop :=
  exists z : Z, x == inject_Z z /\ (- bound <= z <= bound)%Z.

(** ** The usage counter

    The counter is an integer, or [NaN] when [parseInt] finds no number.
    Strings are ASCII; integers are exact (in JavaScript up to 2^53, and
    printed in plain decimal digits up to 10^21). *)

Inductive count : Type :=
| NaN
| Int (z : Z).

(** [usageCount + 1] *)
Definition count_succ (n : count) : count :=
  match n with
  | NaN => NaN
  | Int z => Int (z + 1)
  end.

Definition count_opp (n : count) : count :=
  match n with
  | NaN => NaN
  | Int z => Int (- z)
  end.

(** [newCount.toString()] *)
Definition toString (n : count) : string :=
  match n with
  | NaN => "NaN"
  | Int z => DecimalString.NilEmpty.string_of_int (Z.to_int z)
  end.

(** The white space [parseInt] skips: TAB, LF, VT, FF, CR and space. *)
Definition isWhiteSpace (a : ascii) : bool :=
  let n := nat_of_ascii a in
  (Nat.leb 9 n && Nat.leb n 13) || Nat.eqb n 32.

Fixpoint trimStart (s : string) : string :=
  match s with
  | EmptyString => EmptyString
  | String a s' => if isWhiteSpace a then trimStart s' else s
  end.

Definition digitValue (a : ascii) : option Z :=
  let n := Z.of_nat (nat_of_ascii a) in
  if Z.leb 48 n && Z.leb n 57 then Some (n - 48)%Z else None.

(** The value of the longest prefix of decimal digits, after the digits
    already read ([NaN] while none has been read). *)
Fixpoint parseDigits (s : string) (acc : count) : count :=
  match s with
  | EmptyString => acc
  | String a s' =>
      match digitValue a with
      | Some d =>
          parseDigits s'
            (Int (10 * (match acc with NaN => 0 | Int n => n end) + d))
      | None => acc
      end
  end.

(** [parseInt(s, 10)]: skip leading white space, read an optional sign,
    then the longest prefix of decimal digits; [NaN] when there is none. *)
Definition parseInt (s : string) : count :=
  match trimStart s with
  | String "-"%char r => count_opp (parseDigits r NaN)
  | String "+"%char r => parseDigits r NaN
  | t => parseDigits t NaN
  end.

(** [localStorage]: strings under string keys. *)
Definition Storage : Type := string -> option string.

Definition getItem (ls : Storage) (key : string) : option string := ls key.

Definition setItem (ls : Storage) (key value : string) : Storage :=
  fun k => if String.eqb k key then Some value else ls k.

Definition storageKey : string := "cfo-helper-usage".

(** The counts for which this model is the source's arithmetic: [NaN], and
    the integers [z] with [z] and [z + 1] within 2^53 in absolute value,
    which binary64 holds exactly and [toString] prints in plain digits. *)
Definition exactCount (n : count) : bool :=
  match n with
  | NaN => true
  | Int z => Z.leb (- 2 ^ 53) z && Z.ltb z (2 ^ 53)
  end.

(** What the effects of one commit leave behind: the last value handed to
    [setUsageCount], if any, and the storage. *)
Record Effects : Type := mkEffects {
  pending : option count;
  store : Storage
}.

(** The first effect: [if (savedCount) setUsageCount(parseInt(savedCount, 10))].
    A missing key ([null]) and the empty string are falsy. *)
Definition loadEffect (w : Effects) : Effects :=
  let savedCount := getItem (store w) storageKey in
  match savedCount with
  | Some (String _ _ as saved) =>
      {| pending := Some (parseInt saved); store := store w |}
  | _ => w
  end.

(** The second effect, run by a render whose [usageCount] is [n]. *)
Definition countEffect (n : count) (w : Effects) : Effects :=
  let newCount := count_succ n in
  {| pending := Some newCount;
     store := setItem (store w) storageKey (toString newCount) |}.

(** The counter on screen and the storage, between two renders. *)
Record Shell : Type := mkShell {
  shown : count;
  localStorage : Storage
}.

(** The state after the effects of a render whose [usageCount] was [n]:
    the last [setUsageCount] wins, no call leaves [n]. *)
Definition settle (n : count) (w : Effects) : Shell :=
  {| shown := match pending w with Some m => m | None => n end;
     localStorage := store w |}.

(** The first render: [useState(0)], then both effects in the order of
    their declaration, each with the [usageCount] of that render. *)
Definition mount (ls : Storage) : Shell :=
  let usageCount := Int 0 in
  settle usageCount
    (countEffect usageCount (loadEffect {| pending := None; store := ls |})).

(** The dependency array [[spending, pricing, hiring]] differs between two
    renders. *)
Definition slidersChanged (c c' : Component) : bool :=
  negb (Qeq_bool (spending c) (spending c')
        && Qeq_bool (pricing c) (pricing c')
        && Qeq_bool (hiring c) (hiring c')).

(** A later render, with sliders [c'] after [c]: the second effect runs
    when a dependency changed. *)
Definition rerender (c c' : Component) (sh : Shell) : Shell :=
  if slidersChanged c c'
  then settle (shown sh)
         (countEffect (shown sh) {| pending := None; store := localStorage sh |})
  else sh.

(** The renders of a session, one per slider event. *)
Fixpoint session (c : Component) (events : list Component) (sh : Shell)
    : Shell :=
  match events with
  | [] => sh
  | c' :: rest => session c' rest (rerender c c' sh)
  end.

(** The number of events that moved a slider. *)
Fixpoint changes (c : Component) (events : list Component) : nat :=
  match events with
  | [] => 0%nat
  | c' :: rest =>
      ((if slidersChanged c c' then 1 else 0) + changes c' rest)%nat
  end.

(** ** The same code over binary64

    The forecast once more, with JavaScript's own numbers: every [number]
    is a binary64 value (NaN and the infinities included) and every
    operation rounds as IEEE 754 prescribes.  The properties that depend
    on rounding are stated on this embedding. *)

(** The positions of an [<input type="range" min max step>], as integers. *)
Definition onSliderZ (min max step z : Z) : bool :=
  Z.leb min z && Z.leb z max && Z.eqb ((z - min) mod step) 0.

Definition sliderPositions (min max step : Z) : list Z :=
  map (fun k => (min + step * Z.of_nat k)%Z)
      (seq 0 (Z.to_nat ((max - min) / step) + 1)).

(** The integers [lo], [lo + 1], ..., [hi]. *)
Definition Zrange (lo hi : Z) : list Z :=
  map (fun k => (lo + Z.of_nat k)%Z) (seq 0 (Z.to_nat (hi - lo) + 1)).

(** How a JavaScript operation completes: normally, with a value, or by
    throwing. *)
Inductive completion (A : Type) : Type :=
| Normal (value : A)
| Throw (error : string).
Arguments Normal {A} value.
Arguments Throw {A} error.

Module Binary64.

#[local] Open Scope float_scope.

(** An integer as a binary64 number; exact up to 2^53 in absolute value. *)
Definition of_Z (z : Z) : float :=
  if Z.ltb z 0
  then PrimFloat.opp (PrimFloat.of_uint63 (Uint63.of_Z (- z)))
  else PrimFloat.of_uint63 (Uint63.of_Z z).

(** [Math.floor]: a finite [x] is [+-m * 2^e] for integers [m] and [e];
    with [e >= 0] it is an integer already, otherwise its floor is the
    integer quotient of [+-m] by [2^(-e)].  NaN, the infinities and the
    zeros are returned as they are. *)
Definition Math_floor (x : float) : float :=
  match FloatOps.Prim2SF x with
  | SpecFloat.S754_finite sign m e =>
      if Z.leb 0 e then x
      else of_Z (Z.div (if sign then Z.neg m else Z.pos m) (2 ^ (- e)))
  | _ => x
  end.

Record ForecastData : Type := mkForecastData {
  month : string;
  revenue : float;
  expenses : float;
  cashFlow : float;
  headcount : float
}.

Record Loop : Type := mkLoop {
  data : list ForecastData;
  currentCustomers : float;
  currentHeadcount : float
}.

#[warnings="-inexact-float"]
Definition growthRate : float := 0.15.

Section Engine.

Variables spending_ pricing_ hiring_ : float.

(** One call of the callback [(month, index) => { ... }]. *)
#[warnings="-inexact-float"]
Definition forEach_body (st : Loop) (month_ : string) (index : nat) : Loop :=
  let customerGrowth := Math_floor (currentCustomers st * growthRate) in
  let currentCustomers' := currentCustomers st + customerGrowth in
  let revenue_ := currentCustomers' * pricing_ in
  let employeeCost := currentHeadcount st * 5000 in
  let totalExpenses_ := spending_ + employeeCost in
  let currentHeadcount' :=
    if hiringMonth index
    then currentHeadcount st + Math_floor (hiring_ * 0.2)
    else currentHeadcount st in
  let cashFlow_ := revenue_ - totalExpenses_ in
  {| data := data st ++ [ {| month := month_;
                             revenue := revenue_;
                             expenses := totalExpenses_;
                             cashFlow := cashFlow_;
                             headcount := currentHeadcount' |} ];
     currentCustomers := currentCustomers';
     currentHeadcount := currentHeadcount' |}.

Fixpoint forEach (l : list string) (index : nat) (st : Loop) : Loop :=
  match l with
  | [] => st
  | m :: l' => forEach l' (S index) (forEach_body st m index)
  end.

Definition loopStart : Loop :=
  {| data := []; currentCustomers := 100; currentHeadcount := hiring_ |}.

Definition loopAfter (n : nat) : Loop :=
  forEach (firstn n months) 0%nat loopStart.

Definition generateForecast : list ForecastData :=
  data (forEach months 0%nat loopStart).

(** The same loop with the one step that can throw made explicit:
    [Array.prototype.push] throws once the array would pass its maximal
    length of 2^32 - 1.  The arithmetic, [Math.floor] and the comparison of
    the index complete normally on every number. *)
Definition push (l : list ForecastData) (x : ForecastData)
    : completion (list ForecastData) :=
  if Z.ltb (Z.of_nat (List.length l)) (2 ^ 32 - 1)
  then Normal (l ++ [x])
  else Throw "RangeError: Invalid array length".

#[warnings="-inexact-float"]
Definition forEach_body_completion (st : Loop) (month_ : string)
    (index : nat) : completion Loop :=
  let customerGrowth := Math_floor (currentCustomers st * growthRate) in
  let currentCustomers' := currentCustomers st + customerGrowth in
  let revenue_ := currentCustomers' * pricing_ in
  let employeeCost := currentHeadcount st * 5000 in
  let totalExpenses_ := spending_ + employeeCost in
  let currentHeadcount' :=
    if hiringMonth index
    then currentHeadcount st + Math_floor (hiring_ * 0.2)
    else currentHeadcount st in
  let cashFlow_ := revenue_ - totalExpenses_ in
  match push (data st) {| month := month_;
                          revenue := revenue_;
                          expenses := totalExpenses_;
                          cashFlow := cashFlow_;
                          headcount := currentHeadcount' |} with
  | Normal data' =>
      Normal {| data := data';
                currentCustomers := currentCustomers';
                currentHeadcount := currentHeadcount' |}
  | Throw e => Throw e
  end.

Fixpoint forEach_completion (l : list string) (index : nat) (st : Loop)
    : completion Loop :=
  match l with
  | [] => Normal st
  | m :: l' =>
      match forEach_body_completion st m index with
      | Normal st' => forEach_completion l' (S index) st'
      | Throw e => Throw e
      end
  end.

Definition generateForecast_completion : completion (list ForecastData) :=
  match forEach_completion months 0%nat loopStart with
  | Normal st => Normal (data st)
  | Throw e => Throw e
  end.

End Engine.

(** The reducers of lines 75-78. *)
Definition totalRevenue (forecastData : list ForecastData) : float :=
  fold_left (fun sum item => sum + revenue item) forecastData 0.

Definition totalExpenses (forecastData : list ForecastData) : float :=
  fold_left (fun sum item => sum + expenses item) forecastData 0.

Definition netCashFlow (forecastData : list ForecastData) : float :=
  totalRevenue forecastData - totalExpenses forecastData.

Definition burnRate (forecastData : list ForecastData) : float :=
  totalExpenses forecastData / 12.

(** [`forecast-value ${netCashFlow > 0 ? 'positive' : 'negative'}`] *)
Definition netCashFlowClass (forecastData : list ForecastData) : string :=
  if 0 <? netCashFlow forecastData then "positive" else "negative".

(** *** Definitions used to state the properties *)

(** [l.reduce((sum, x) => sum + x, 0)] *)
Definition sum (l : list float) : float := fold_left PrimFloat.add l 0.

(** The sum of the [cashFlow] fields, taken like the other totals. *)
Definition totalCashFlow (forecastData : list ForecastData) : float :=
  fold_left (fun sum item => sum + cashFlow item) forecastData 0.

Fixpoint customersAfter (n : nat) : float :=
  match n with
  | O => 100
  | S k => customersAfter k + Math_floor (customersAfter k * growthRate)
  end.

#[warnings="-inexact-float"]
Fixpoint headcountBefore (hiring_ : float) (index : nat) : float :=
  match index with
  | O => hiring_
  | S k =>
      if hiringMonth k
      then headcountBefore hiring_ k + Math_floor (hiring_ * 0.2)
      else headcountBefore hiring_ k
  end.

Definition recordAt (spending_ pricing_ hiring_ : float)
    (month_ : string) (index : nat) : ForecastData :=
  {| month := month_;
     revenue := customersAfter (S index) * pricing_;
     expenses := spending_ + headcountBefore hiring_ index * 5000;
     cashFlow := customersAfter (S index) * pricing_
                 - (spending_ + headcountBefore hiring_ index * 5000);
     headcount := headcountBefore hiring_ (S index) |}.

(** The twelve customer counts that enter the revenues. *)
Definition customerCounts : list float :=
  [115; 132; 151; 173; 198; 227; 261; 300; 345; 396; 455; 523].

Definition revenuesOf (pricing_ : float) : list float :=
  map (fun c => c * pricing_) customerCounts.

(** The head counts the records show. *)
#[warnings="-inexact-float"]
Definition headcountsOf (hiring_ : float) : list float :=
  let d := Math_floor (hiring_ * 0.2) in
  let h := hiring_ in
  [h; h; h; h + d; h + d; h + d; h + d + d; h + d + d; h + d + d;
   h + d + d + d; h + d + d + d; h + d + d + d].

(** The head counts the expenses pay for. *)
#[warnings="-inexact-float"]
Definition paidHeadcountsOf (hiring_ : float) : list float :=
  let d := Math_floor (hiring_ * 0.2) in
  let h := hiring_ in
  [h; h; h; h; h + d; h + d; h + d; h + d + d; h + d + d; h + d + d;
   h + d + d + d; h + d + d + d].

Definition expensesOf (spending_ hiring_ : float) : list float :=
  map (fun hc => spending_ + hc * 5000) (paidHeadcountsOf hiring_).

Fixpoint zipSub (a b : list float) : list float :=
  match a, b with
  | x :: a', y :: b' => (x - y) :: zipSub a' b'
  | _, _ => []
  end.

(** *** Checks run over finite ranges of inputs *)

(** The head counts at initial head count [z]: the step is [z / 5], the
    record at index [i] shows [z + (i / 3) * (z / 5)], the sequence never
    falls, moves by the step at 3, 6, 9 and not at all elsewhere. *)
#[warnings="-inexact-float"]
Definition headcountCheck (z : Z) : bool :=
  let h := of_Z z in
  let step := Math_floor (h * 0.2) in
  let hc := headcountsOf h in
  (step =? of_Z (z / 5))
  && forallb (fun i => nth i hc 0
                       =? of_Z (z + Z.of_nat (i / 3) * (z / 5)))
             (seq 0 12)
  && forallb (fun i => nth i hc 0 <=? nth (S i) hc 0) (seq 0 11)
  && forallb (fun i => nth i hc 0 - nth (i - 1) hc 0 =? step)
             [3; 6; 9]%nat
  && forallb (fun i => nth i hc 0 =? nth (i - 1) hc 0)
             [1; 2; 4; 5; 7; 8; 10; 11]%nat.

(** The revenues at each position of the pricing slider, with their sum. *)
Definition pricingTable : list (Z * (list float * float)) :=
  map (fun zp => (zp, (revenuesOf (of_Z zp), sum (revenuesOf (of_Z zp)))))
      (sliderPositions 10 1000 10).

(** The payroll of a year, in whole currency units. *)
Definition yearCost (zs zh : Z) : Z :=
  (12 * zs + 60000 * zh + 75000 * (zh / 5))%Z.

(** Net cash flow from the two totals against the sum of the cash flows. *)
Definition reconcileCheck (r : list float * float) (e : list float * float)
    : bool :=
  snd r - snd e =? sum (zipSub (fst r) (fst e)).

(** The total revenue at each position of the pricing slider, with the
    integer it should be. *)
Definition pricingTotals : list (Z * float) :=
  map (fun zp => ((3276 * zp)%Z, sum (revenuesOf (of_Z zp))))
      (sliderPositions 10 1000 10).

(** The sign test of the summary panel against the integers. *)
Definition netCheck (revenue_ : Z * float) (cost : Z) (se : float) : bool :=
  Bool.eqb (0 <? snd revenue_ - se) (Z.ltb cost (fst revenue_)).

(** Total expenses and burn rate as exact integers; the head counts shown
    against the head counts paid. *)
Definition expensesCheck (zs zh : Z) : bool :=
  let s := of_Z zs in
  let h := of_Z zh in
  let te := sum (expensesOf s h) in
  let shown := sum (headcountsOf h) in
  (te =? of_Z (yearCost zs zh))
  && (te / 12 =? of_Z (zs + 5000 * zh + 6250 * (zh / 5)))
  && (shown =? of_Z (12 * zh + 18 * (zh / 5)))
  && (te - 12 * s =? of_Z (5000 * (12 * zh + 15 * (zh / 5))))
  && (5000 * shown - (te - 12 * s) =? of_Z (15000 * (zh / 5))).

(** Scaling the price by the integer [k]. *)
Definition scalingCheck (zp k : Z) : bool :=
  let p := of_Z zp in
  let kf := of_Z k in
  let r := revenuesOf p in
  let r' := revenuesOf (kf * p) in
  forallb (fun i => nth i r' 0 =? kf * nth i r 0) (seq 0 12)
  && (sum r' =? kf * sum r)
  && (sum r =? of_Z (3276 * zp)).

(** The head count of the last record at initial head count [z]. *)
Definition yearEndCheck (z : Z) : bool :=
  nth 11 (headcountsOf (of_Z z)) 0 =? of_Z (z + 3 * (z / 5)).

(** Revenue from one month to the next, at the integer price [zp]. *)
Definition growthCheck (zp : Z) : bool :=
  let r := revenuesOf (of_Z zp) in
  forallb (fun i =>
             Bool.eqb (nth i r 0 <? nth (S i) r 0) (Z.ltb 0 zp)
             && Bool.eqb (nth i r 0 =? nth (S i) r 0) (Z.eqb zp 0))
          (seq 0 11).

End Binary64.

(** ** The loop, index by index *)

Lemma forEach_invariant s p h l i st :
  currentCustomers st = customersAfter i ->
  currentHeadcount st = headcountBefore h i ->
  let st' := forEach s p h l i st in
  data st' = data st ++ map (fun mi => recordAt s p h (fst mi) (snd mi))
                            (combine l (seq i (List.length l)))
  /\ currentCustomers st' = customersAfter (i + List.length l)
  /\ currentHeadcount st' = headcountBefore h (i + List.length l).
Proof.
  revert i st; induction l as [|m l IH]; intros i st Hc Hh;
    cbn [forEach List.length seq combine map].
  - rewrite app_nil_r, Nat.add_0_r. auto.
  - assert (Hc1 : currentCustomers (forEach_body s p h st m i)
                  = customersAfter (S i)).
    { cbn [forEach_body currentCustomers customersAfter].
      now rewrite Hc. }
    assert (Hh1 : currentHeadcount (forEach_body s p h st m i)
                  = headcountBefore h (S i)).
    { cbn [forEach_body currentHeadcount headcountBefore]. now rewrite Hh. }
    destruct (IH (S i) (forEach_body s p h st m i) Hc1 Hh1) as (Hd & Hc' & Hh').
    rewrite Hd, Hc', Hh', Nat.add_succ_r. repeat split.
    cbn [forEach_body data fst snd]. rewrite <- app_assoc.
    cbn [app]. do 2 f_equal.
    unfold recordAt. cbn [customersAfter headcountBefore].
    rewrite Hc, Hh. reflexivity.
Qed.

Lemma generateForecast_records s p h :
  generateForecast s p h
  = map (fun mi => recordAt s p h (fst mi) (snd mi))
        (combine months (seq 0 12)).
Proof.
  unfold generateForecast.
  destruct (forEach_invariant s p h months 0 (loopStart h)
              eq_refl eq_refl) as (Hd & _).
  exact Hd.
Qed.

Lemma generateForecast_length s p h :
  List.length (generateForecast s p h) = 12%nat.
Proof. rewrite generateForecast_records. reflexivity. Qed.

Lemma generateForecast_nth s p h i :
  (i < 12)%nat ->
  nth_error (generateForecast s p h) i
  = Some (recordAt s p h (nth i months EmptyString) i).
Proof.
  intros H. rewrite generateForecast_records.
  do 12 (destruct i as [|i]; [reflexivity | ]).
  lia.
Qed.

Lemma generateForecast_nth_inv s p h i r :
  nth_error (generateForecast s p h) i = Some r ->
  (i < 12)%nat /\ r = recordAt s p h (nth i months EmptyString) i.
Proof.
  intros H.
  assert (Hi : (i < 12)%nat).
  { rewrite <- (generateForecast_length s p h).
    apply nth_error_Some. congruence. }
  split; [exact Hi | ].
  rewrite (generateForecast_nth s p h i Hi) in H. congruence.
Qed.

(** The head counts pushed by the loop, written out. *)
Lemma headcount_list s p h :
  map headcount (generateForecast s p h)
  = let d := Math_floor (h * (2 # 10)) in
    [h; h; h; h + d; h + d; h + d; h + d + d; h + d + d; h + d + d;
     h + d + d + d; h + d + d + d; h + d + d + d].
Proof. rewrite generateForecast_records. reflexivity. Qed.

(** The head counts that enter the expenses, written out. *)
Lemma expenses_list s p h :
  map expenses (generateForecast s p h)
  = let d := Math_floor (h * (2 # 10)) in
    map (fun hc => s + hc * 5000)
      [h; h; h; h; h + d; h + d; h + d; h + d + d; h + d + d; h + d + d;
       h + d + d + d; h + d + d + d].
Proof. rewrite generateForecast_records. reflexivity. Qed.

Lemma revenue_list s p h :
  map revenue (generateForecast s p h)
  = map (fun c => inject_Z c * p)
      [115; 132; 151; 173; 198; 227; 261; 300; 345; 396; 455; 523]%Z.
Proof. rewrite generateForecast_records. reflexivity. Qed.

(** The closure's variables after [n] callbacks. *)
Lemma loopAfter_spec s p h n :
  (n <= 12)%nat ->
  data (loopAfter s p h n)
  = map (fun mi => recordAt s p h (fst mi) (snd mi))
        (combine (firstn n months) (seq 0 n))
  /\ currentCustomers (loopAfter s p h n) = customersAfter n
  /\ currentHeadcount (loopAfter s p h n) = headcountBefore h n.
Proof.
  intros Hn. unfold loopAfter.
  destruct (forEach_invariant s p h (firstn n months) 0 (loopStart h)
              eq_refl eq_refl) as (Hd & Hc & Hh).
  assert (Hl : List.length (firstn n months) = n).
  { rewrite length_firstn. change (List.length months) with 12%nat. lia. }
  rewrite Hl in Hd, Hc, Hh. cbn [Nat.add] in Hc, Hh.
  rewrite Hd, Hc, Hh. repeat split.
Qed.

(** ** Floors *)

Lemma floor_fifth z : Qfloor (inject_Z z * (2 # 10)) = (z / 5)%Z.
Proof.
  unfold Qfloor, Qmult, inject_Z; cbn [Qnum Qden].
  change (Z.pos (1 * 10)) with (5 * 2)%Z.
  now rewrite Z.div_mul_cancel_r by lia.
Qed.

(** X10: the floors of the model are the floors of binary64 arithmetic: at each
    of the twelve customer counts the loop multiplies by [0.15], and at
    every head count the slider offers (1 to 50, and 0). *)
Lemma floor_agrees_with_binary64 :
  forallb customerGrowth_agrees
    [100; 115; 132; 151; 173; 198; 227; 261; 300; 345; 396; 455]%Z = true
  /\ forallb hiringStep_agrees (map Z.of_nat (seq 0 51)) = true.
Proof. split; vm_compute; reflexivity. Qed.

#[global] Instance Math_floor_proper : Proper (Qeq ==> Qeq) Math_floor.
Proof. intros x y H. unfold Math_floor. now rewrite H. Qed.

(** ** Shape of the result *)

(** C3: for all inputs [generateForecast] returns exactly twelve records,
    and their month labels are Jan, Feb, ..., Dec in this order. *)
Theorem generateForecast_calendar (s p h : number) :
  List.length (generateForecast s p h) = 12%nat
  /\ map month (generateForecast s p h)
     = ["Jan"; "Feb"; "Mar"; "Apr"; "May"; "Jun";
        "Jul"; "Aug"; "Sep"; "Oct"; "Nov"; "Dec"]%string.
Proof.
  split; [apply generateForecast_length | ].
  rewrite generateForecast_records. reflexivity.
Qed.

(** ** Head count *)

(** C2: at indices 3, 6 and 9 the expenses are [spending] plus 5000 times
    the head count the closure holds when the callback is entered (the
    head count before this index's hiring step, which is also the one the
    previous record emitted), while the head count emitted by the record
    itself already contains the increment [floor (hiring * 0.2)]; at every
    other index the expenses are [spending] plus 5000 times the record's
    own head count. *)
Theorem expenses_use_headcount_before_hiring (s p h : number) (i : nat)
    (r : ForecastData) :
  nth_error (generateForecast s p h) i = Some r ->
  ((i = 3 \/ i = 6 \/ i = 9)%nat ->
     expenses r = s + currentHeadcount (loopAfter s p h i) * 5000
     /\ headcount r
        = currentHeadcount (loopAfter s p h i) + Math_floor (h * (2 # 10))
     /\ exists prev,
          nth_error (generateForecast s p h) (i - 1) = Some prev
          /\ headcount prev = currentHeadcount (loopAfter s p h i))
  /\ (i <> 3%nat -> i <> 6%nat -> i <> 9%nat ->
      expenses r = s + headcount r * 5000).
Proof.
  intros H. apply generateForecast_nth_inv in H. destruct H as [Hi ->].
  destruct (loopAfter_spec s p h i) as (_ & _ & ->); [lia | ].
  split.
  - intros Hi3. split; [reflexivity | ]. split.
    + destruct Hi3 as [-> | [-> | ->]]; reflexivity.
    + exists (recordAt s p h (nth (i - 1) months EmptyString) (i - 1)).
      split; [apply generateForecast_nth; lia | ].
      destruct Hi3 as [-> | [-> | ->]]; reflexivity.
  - intros H3 H6 H9.
    do 12 (destruct i as [|i]; [try congruence; reflexivity | ]).
    lia.
Qed.

Lemma expenses_use_headcount_before_hiring_witness :
  exists r prev,
    nth_error (generateForecast 50000 100 10) 3 = Some r
    /\ nth_error (generateForecast 50000 100 10) 2 = Some prev
    /\ expenses r = 50000 + headcount prev * 5000
    /\ headcount r = headcount prev + Math_floor (10 * (2 # 10))
    /\ expenses r == 100000 /\ headcount r == 12.
Proof.
  pose (r := recordAt 50000 100 10 "Apr" 3).
  assert (Hr : nth_error (generateForecast 50000 100 10) 3 = Some r)
    by (apply (generateForecast_nth 50000 100 10 3); lia).
  destruct (expenses_use_headcount_before_hiring 50000 100 10 3 r Hr)
    as [Hev _].
  destruct Hev as (He & Hh & prev & Hp & Hq); [auto | ].
  exists r, prev. rewrite Hq.
  repeat split; try assumption; reflexivity.
Defined.

(** ** Aggregates *)

(** A [reduce] that adds one field to the running sum computes the
    starting value plus the sum of that field. *)
Lemma reduce_sum (f : ForecastData -> number) l a :
  fold_left (fun sum item => sum + f item) l a == a + Qsum (map f l).
Proof.
  revert a; induction l as [|x l IH]; intros a; cbn [fold_left map Qsum fold_right].
  - ring.
  - rewrite IH. fold (Qsum (map f l)). ring.
Qed.

Lemma totalRevenue_sum d : totalRevenue d == Qsum (map revenue d).
Proof. unfold totalRevenue. rewrite reduce_sum. ring. Qed.

Lemma totalExpenses_sum d : totalExpenses d == Qsum (map expenses d).
Proof. unfold totalExpenses. rewrite reduce_sum. ring. Qed.



(** With the [useState] defaults the year costs 1 350 000 and burns
    112 500 a month. *)
Example burnRate_defaults :
  totalExpenses (forecastData initialComponent) == 1350000
  /\ burnRate (forecastData initialComponent) == 112500.
Proof. split; vm_compute; reflexivity. Qed.

(** ** Customers and revenue *)

(** The customer base held by the closure after each callback. *)
Lemma customers_values s p h n :
  (n <= 12)%nat ->
  currentCustomers (loopAfter s p h n)
  = nth n [100; 115; 132; 151; 173; 198; 227; 261; 300; 345; 396; 455; 523] 0.
Proof.
  intros Hn. destruct (loopAfter_spec s p h n Hn) as (_ & -> & _).
  do 13 (destruct n as [|n]; [vm_compute; reflexivity | ]).
  lia.
Qed.

(** C5: with [pricing = 100] the record at index 0 has revenue 11500: the
    customer base starts at 100, the first callback raises it by
    [floor (100 * 0.15) = 15] to 115 before it computes the revenue, and
    the revenue is that base times the price. *)
Theorem first_month_revenue (s h : number) :
  currentCustomers (loopAfter s 100 h 0) == 100
  /\ currentCustomers (loopAfter s 100 h 1) == 100 + Math_floor (100 * (15 # 100))
  /\ currentCustomers (loopAfter s 100 h 1) == 115
  /\ exists r,
       nth_error (generateForecast s 100 h) 0 = Some r
       /\ revenue r == currentCustomers (loopAfter s 100 h 1) * 100
       /\ revenue r == 11500.
Proof.
  rewrite (customers_values s 100 h 0), (customers_values s 100 h 1) by lia.
  cbn [nth].
  split; [reflexivity | ].
  split; [reflexivity | ].
  split; [reflexivity | ].
  exists (recordAt s 100 h "Jan" 0).
  split; [apply (generateForecast_nth s 100 h 0); lia | ].
  split; reflexivity.
Qed.

(** ** Further properties of the forecast *)


Lemma totalExpenses_closed s p h :
  totalExpenses (generateForecast s p h)
  == 12 * s + 60000 * h + 75000 * Math_floor (h * (2 # 10)).
Proof.
  rewrite totalExpenses_sum, expenses_list. cbv zeta.
  cbn [map Qsum fold_right]. ring.
Qed.

Lemma totalRevenue_closed s p h :
  totalRevenue (generateForecast s p h) == 3276 * p.
Proof.
  rewrite totalRevenue_sum, revenue_list.
  cbn [map Qsum fold_right]. unfold inject_Z. ring.
Qed.




(** X6: the size of a hiring step, for an integer initial team [z]: it is zero
    exactly for teams of 0 to 4, and it is the "1-2 people" of the source
    comment exactly for teams of 5 to 14.  A team of 0 to 4 therefore never
    grows: all twelve records carry the initial head count and the same
    expenses. *)
Theorem hiring_step_size (s p : number) (z : Z) :
  (Math_floor (inject_Z z * (2 # 10)) == 0 <-> (0 <= z < 5)%Z)
  /\ (1 <= Math_floor (inject_Z z * (2 # 10)) <= 2 <-> (5 <= z < 15)%Z)
  /\ ((0 <= z < 5)%Z ->
      Forall (fun r => headcount r == inject_Z z
                       /\ expenses r == s + inject_Z z * 5000)
             (generateForecast s p (inject_Z z))).
Proof.
  assert (E : Math_floor (inject_Z z * (2 # 10)) = inject_Z (z / 5))
    by (unfold Math_floor; now rewrite floor_fifth).
  rewrite E.
  assert (A : inject_Z (z / 5) == 0 <-> (0 <= z < 5)%Z).
  { change 0 with (inject_Z 0). rewrite inject_Z_injective.
    split; intros H.
    - pose proof (Z.div_mod z 5 ltac:(lia)).
      pose proof (Z.mod_pos_bound z 5 ltac:(lia)). lia.
    - apply Z.div_small. exact H. }
  split; [exact A | split].
  - change 1 with (inject_Z 1). change 2 with (inject_Z 2).
    rewrite <- !Zle_Qle.
    pose proof (Z.div_mod z 5 ltac:(lia)).
    pose proof (Z.mod_pos_bound z 5 ltac:(lia)). lia.
  - intros Hz. apply A in Hz.
    assert (Hh : Forall (fun x => x == inject_Z z)
                   (map headcount (generateForecast s p (inject_Z z)))).
    { rewrite headcount_list. cbv zeta. rewrite E.
      repeat (constructor; [rewrite ?Hz; ring | ]). constructor. }
    assert (He : Forall (fun x => x == s + inject_Z z * 5000)
                   (map expenses (generateForecast s p (inject_Z z)))).
    { rewrite expenses_list. cbv zeta. rewrite E. cbn [map].
      repeat (constructor; [rewrite ?Hz; ring | ]). constructor. }
    rewrite Forall_map in Hh, He. rewrite Forall_forall in *.
    intros r Hr. split; [apply Hh | apply He]; exact Hr.
Qed.

Lemma hiring_step_size_witness :
  Forall (fun r => headcount r == 4 /\ expenses r == 50000 + 4 * 5000)
         (generateForecast 50000 100 (inject_Z 4)).
Proof.
  destruct (hiring_step_size 50000 100 4) as (_ & _ & H).
  apply H. lia.
Defined.



(** ** Integer values on the sliders *)

Lemma onSlider_spec min max step x :
  onSlider min max step x = true ->
  exists z, x == inject_Z z /\ (min <= z <= max)%Z
            /\ ((z - min) mod step = 0)%Z.
Proof.
  unfold onSlider, isInteger. intros H.
  repeat (apply andb_prop in H; destruct H as [H ?]).
  exists (Qfloor x).
  split; [now apply Qeq_bool_iff | ].
  split; [split; now apply Z.leb_le | now apply Z.eqb_eq].
Qed.

Lemma integerWithin_intro bound x z :
  x == inject_Z z -> inject_Z (- bound) <= x <= inject_Z bound ->
  integerWithin bound x.
Proof.
  intros E [Hl Hu]. exists z. split; [exact E | ].
  rewrite E in Hl, Hu. rewrite <- Zle_Qle in Hl, Hu. lia.
Qed.

Lemma integerWithin_inject bound z :
  (- bound <= z <= bound)%Z -> integerWithin bound (inject_Z z).
Proof. intros H. exists z. split; [reflexivity | exact H]. Qed.

#[global] Instance integerWithin_proper bound :
  Proper (Qeq ==> iff) (integerWithin bound).
Proof.
  intros x y E. unfold integerWithin.
  split; intros (z & Hz & B); exists z; split; try exact B.
  - now rewrite <- E.
  - now rewrite E.
Qed.

(** Brings an expression built from injected integers into the form
    [inject_Z z]. *)
Ltac inject_Z_fold :=
  unfold Qminus;
  change 5000 with (inject_Z 5000);
  repeat (rewrite <- inject_Z_plus || rewrite <- inject_Z_mult
          || rewrite <- inject_Z_opp).

Lemma cashFlow_list s p h :
  map cashFlow (generateForecast s p h)
  = let d := Math_floor (h * (2 # 10)) in
    map (fun ch => inject_Z (fst ch) * p - (s + snd ch * 5000))
      (combine
         [115; 132; 151; 173; 198; 227; 261; 300; 345; 396; 455; 523]%Z
         [h; h; h; h; h + d; h + d; h + d; h + d + d; h + d + d; h + d + d;
          h + d + d + d; h + d + d + d]).
Proof. rewrite generateForecast_records. reflexivity. Qed.

(** X8: at every position of the three sliders, each number of each record
    and each of the four aggregates is an integer, and none exceeds ten
    million in absolute value, far below 2^53. *)
Theorem slider_values_are_small_integers (c : Component) :
  sliderRange c = true ->
  Forall (fun r => integerWithin 523000 (revenue r)
                   /\ integerWithin 600000 (expenses r)
                   /\ integerWithin 600000 (cashFlow r)
                   /\ integerWithin 80 (headcount r))
         (forecastData c)
  /\ integerWithin 10000000 (totalRevenue (forecastData c))
  /\ integerWithin 10000000 (totalExpenses (forecastData c))
  /\ integerWithin 10000000 (netCashFlow (forecastData c))
  /\ integerWithin 10000000 (burnRate (forecastData c))
  /\ (10000000 < 2 ^ 53)%Z.
Proof.
  unfold sliderRange. intros H.
  apply andb_prop in H. destruct H as [H Hh].
  apply andb_prop in H. destruct H as [Hs Hp].
  apply onSlider_spec in Hs. destruct Hs as (zs & Es & Bs & _).
  apply onSlider_spec in Hp. destruct Hp as (zp & Ep & Bp & _).
  apply onSlider_spec in Hh. destruct Hh as (zh & Eh & Bh & _).
  unfold forecastData.
  destruct c as [s p h u]; cbn [spending pricing hiring] in *.
  pose proof (Z.div_mod zh 5 ltac:(lia)) as Hdm.
  pose proof (Z.mod_pos_bound zh 5 ltac:(lia)) as Hmb.
  assert (Ed : Math_floor (h * (2 # 10)) == inject_Z (zh / 5)).
  { rewrite Eh. unfold Math_floor. now rewrite floor_fifth. }
  set (zd := (zh / 5)%Z) in *.
  set (l := generateForecast s p h).
  assert (HR : Forall (integerWithin 523000) (map revenue l)).
  { subst l. rewrite revenue_list. cbn [map].
    repeat (constructor;
            [rewrite Ep; inject_Z_fold; apply integerWithin_inject; lia | ]).
    constructor. }
  assert (HE : Forall (integerWithin 600000) (map expenses l)).
  { subst l. rewrite expenses_list. cbv zeta. cbn [map].
    repeat (constructor;
            [rewrite ?Ed, Es, Eh; inject_Z_fold;
             apply integerWithin_inject; lia | ]).
    constructor. }
  assert (HC : Forall (integerWithin 600000) (map cashFlow l)).
  { subst l. rewrite cashFlow_list. cbv zeta. cbn [map combine fst snd].
    repeat (constructor;
            [rewrite ?Ed, Es, Eh, Ep; inject_Z_fold;
             apply integerWithin_inject; lia | ]).
    constructor. }
  assert (HH : Forall (integerWithin 80) (map headcount l)).
  { subst l. rewrite headcount_list. cbv zeta.
    repeat (constructor;
            [rewrite ?Ed, Eh; inject_Z_fold;
             apply integerWithin_inject; lia | ]).
    constructor. }
  assert (TR : totalRevenue l == inject_Z (3276 * zp)).
  { subst l. rewrite totalRevenue_closed, Ep, inject_Z_mult. reflexivity. }
  assert (TE : totalExpenses l
               == inject_Z (12 * zs + 60000 * zh + 75000 * zd)).
  { subst l. rewrite totalExpenses_closed, Ed, Es, Eh.
    rewrite !inject_Z_plus, !inject_Z_mult. reflexivity. }
  clearbody l.
  split; [ | split; [ | split; [ | split; [ | split]]]].
  - rewrite Forall_map in HR, HE, HC, HH. rewrite Forall_forall in *.
    intros r Hr. auto.
  - rewrite TR. apply integerWithin_inject. lia.
  - rewrite TE. apply integerWithin_inject. lia.
  - unfold netCashFlow. rewrite TR, TE. inject_Z_fold.
    apply integerWithin_inject. lia.
  - assert (B : burnRate l == inject_Z (zs + 5000 * zh + 6250 * zd)).
    { unfold burnRate. rewrite TE.
      rewrite !inject_Z_plus, !inject_Z_mult. unfold inject_Z. field. }
    rewrite B. apply integerWithin_inject. lia.
  - reflexivity.
Qed.

Lemma slider_values_are_small_integers_witness :
  integerWithin 10000000 (netCashFlow (forecastData initialComponent)).
Proof.
  destruct (slider_values_are_small_integers initialComponent)
    as (_ & _ & _ & H & _); [reflexivity | exact H].
Defined.

(** ** The usage counter: what is stored and what is read back *)

Lemma parseDigits_acc d p :
  parseDigits (DecimalString.NilEmpty.string_of_uint d) (Int (Z.pos p))
  = Int (Z.pos (Pos.of_uint_acc d p)).
Proof.
  revert p; induction d; intros p;
    cbn [DecimalString.NilEmpty.string_of_uint parseDigits Pos.of_uint_acc];
    try reflexivity;
    match goal with
    | |- context [digitValue ?a] =>
        let v := eval vm_compute in (digitValue a) in
        change (digitValue a) with v
    end; cbv iota beta;
    rewrite <- IHd; do 2 f_equal; lia.
Qed.

Lemma parseDigits_uint d acc :
  acc = NaN \/ acc = Int 0 -> d <> Decimal.Nil ->
  parseDigits (DecimalString.NilEmpty.string_of_uint d) acc
  = Int (Z.of_N (Pos.of_uint d)).
Proof.
  revert acc; induction d; intros acc Hacc Hd;
    [congruence | | | | | | | | | | ];
    cbn [DecimalString.NilEmpty.string_of_uint parseDigits Pos.of_uint];
    match goal with
    | |- context [digitValue ?a] =>
        let v := eval vm_compute in (digitValue a) in
        change (digitValue a) with v
    end; cbv iota beta;
    (replace (match acc with NaN => 0%Z | Int n => n end) with 0%Z
      by (destruct Hacc; subst; reflexivity));
    cbn [Z.mul Z.add];
    try (rewrite parseDigits_acc; reflexivity).
  destruct d; try (apply IHd; [now right | discriminate]).
  reflexivity.
Qed.

Lemma first_is_digit d :
  d <> Decimal.Nil ->
  exists a r, DecimalString.NilEmpty.string_of_uint d = String a r
              /\ isWhiteSpace a = false
              /\ a <> "-"%char /\ a <> "+"%char.
Proof.
  intros Hd.
  destruct d; [congruence | ..];
    cbn [DecimalString.NilEmpty.string_of_uint];
    eexists _, _; (split; [reflexivity | ]);
    (split; [reflexivity | ]); split; discriminate.
Qed.

Lemma parseInt_no_sign a r :
  isWhiteSpace a = false -> a <> "-"%char -> a <> "+"%char ->
  parseInt (String a r) = parseDigits (String a r) NaN.
Proof.
  intros W M P. unfold parseInt. cbn [trimStart]. rewrite W.
  destruct a as [[|] [|] [|] [|] [|] [|] [|] [|]];
    try reflexivity; congruence.
Qed.

Lemma parseInt_unsigned d :
  d <> Decimal.Nil ->
  parseInt (DecimalString.NilEmpty.string_of_uint d)
  = Int (Z.of_N (Pos.of_uint d)).
Proof.
  intros Hd. destruct (first_is_digit d Hd) as (a & r & E & W & M & P).
  rewrite E, (parseInt_no_sign a r W M P), <- E.
  apply parseDigits_uint; auto.
Qed.

Lemma parseInt_toString_Int z : parseInt (toString (Int z)) = Int z.
Proof.
  destruct z as [|p|p]; cbn [toString Z.to_int
                              DecimalString.NilEmpty.string_of_int].
  - reflexivity.
  - rewrite parseInt_unsigned by apply DecimalPos.Unsigned.to_uint_nonnil.
    now rewrite DecimalPos.Unsigned.of_to.
  - destruct (first_is_digit (Pos.to_uint p)
                (DecimalPos.Unsigned.to_uint_nonnil p))
      as (a & r & E & _).
    unfold parseInt. cbn [trimStart].
    change (isWhiteSpace "-") with false. cbv iota.
    rewrite parseDigits_uint;
      [ | now left | apply DecimalPos.Unsigned.to_uint_nonnil].
    now rewrite DecimalPos.Unsigned.of_to.
Qed.

Lemma toString_nonempty n : exists a r, toString n = String a r.
Proof.
  destruct n as [|[|p|p]]; cbn [toString Z.to_int
                                 DecimalString.NilEmpty.string_of_int];
    try (eexists _, _; reflexivity).
  destruct (first_is_digit (Pos.to_uint p)
              (DecimalPos.Unsigned.to_uint_nonnil p)) as (a & r & E & _).
  eauto.
Qed.

Lemma getItem_setItem ls key value k :
  getItem (setItem ls key value) k
  = if String.eqb k key then Some value else getItem ls k.
Proof. reflexivity. Qed.

(** X11: for every count that binary64 holds exactly ([NaN], or an integer
    [n] with [-2^53 <= n < 2^53]) what the counting effect stores is read
    back unchanged by the loading effect of a later page load: the written
    string is never empty, so it is truthy, and [parseInt] inverts
    [toString]. *)
Theorem stored_count_reads_back (n : count) (w : Effects) :
  exactCount n = true ->
  parseInt (toString n) = n
  /\ getItem (store (countEffect n w)) storageKey
     = Some (toString (count_succ n))
  /\ pending (loadEffect {| pending := None;
                            store := store (countEffect n w) |})
     = Some (count_succ n).
Proof.
  intros _.
  assert (R : forall m, parseInt (toString m) = m).
  { intros [|z]; [reflexivity | apply parseInt_toString_Int]. }
  split; [apply R | ].
  assert (G : getItem (store (countEffect n w)) storageKey
              = Some (toString (count_succ n))).
  { cbn [countEffect store]. rewrite getItem_setItem.
    now rewrite String.eqb_refl. }
  split; [exact G | ].
  unfold loadEffect. cbn [store pending] in *. rewrite G.
  destruct (toString_nonempty (count_succ n)) as (a & r & E).
  rewrite E. cbn [pending]. rewrite <- E. now rewrite R.
Qed.

Lemma stored_count_reads_back_witness :
  parseInt (toString (Int 41)) = Int 41
  /\ pending (loadEffect
                {| pending := None;
                   store := store (countEffect (Int 41)
                                     {| pending := None;
                                        store := fun _ => None |}) |})
     = Some (Int 42).
Proof.
  destruct (stored_count_reads_back (Int 41)
              {| pending := None; store := fun _ => None |} eq_refl)
    as (A & _ & C).
  split; [exact A | exact C].
Defined.

Lemma mount_state ls :
  shown (mount ls) = Int 1
  /\ getItem (localStorage (mount ls)) storageKey = Some (toString (Int 1)).
Proof.
  unfold mount, settle. cbn [countEffect pending store shown localStorage].
  split; [reflexivity | ].
  rewrite getItem_setItem. now rewrite String.eqb_refl.
Qed.

(** X12: opening the page discards the saved count: whatever the storage
    holds under the key (nothing, a number, anything else), after the
    first render the counter shows 1 and the storage holds ["1"]; the
    other keys are left as they were. *)
Theorem mount_resets_count (ls : Storage) :
  shown (mount ls) = Int 1
  /\ getItem (localStorage (mount ls)) storageKey = Some "1"%string
  /\ (forall k, k <> storageKey ->
        getItem (localStorage (mount ls)) k = getItem ls k).
Proof.
  destruct (mount_state ls) as (Hs & Hg).
  split; [exact Hs | split; [exact Hg | ]].
  intros k Hk. unfold mount, settle.
  cbn [countEffect pending store shown localStorage].
  rewrite getItem_setItem.
  apply String.eqb_neq in Hk. rewrite Hk.
  unfold loadEffect. cbn [store].
  destruct (getItem ls storageKey) as [[|a r]|]; reflexivity.
Qed.

Lemma rerender_invariant c c' sh z :
  shown sh = Int z ->
  getItem (localStorage sh) storageKey = Some (toString (Int z)) ->
  let z' := (z + if slidersChanged c c' then 1 else 0)%Z in
  shown (rerender c c' sh) = Int z'
  /\ getItem (localStorage (rerender c c' sh)) storageKey
     = Some (toString (Int z')).
Proof.
  intros Hs Hg. unfold rerender.
  destruct (slidersChanged c c'); cbv zeta.
  - unfold settle. cbn [countEffect pending store shown localStorage].
    rewrite Hs. cbn [count_succ]. split; [reflexivity | ].
    rewrite getItem_setItem. now rewrite String.eqb_refl.
  - rewrite Z.add_0_r. auto.
Qed.

(** X13: after the first render and any sequence of slider events, the counter
    shows one plus the number of events that moved a slider (an event that
    leaves the three values as they are does not count), it is never
    [NaN], and the storage holds its decimal string. *)
Theorem session_counts_changes (ls : Storage) (c : Component)
    (events : list Component) :
  shown (session c events (mount ls))
  = Int (1 + Z.of_nat (changes c events))
  /\ getItem (localStorage (session c events (mount ls))) storageKey
     = Some (toString (Int (1 + Z.of_nat (changes c events)))).
Proof.
  destruct (mount_state ls) as (Hs & Hg).
  generalize dependent (mount ls). intros sh.
  change (Int 1) with (Int (1 + 0)).
  assert (G : forall z sh c,
            shown sh = Int z ->
            getItem (localStorage sh) storageKey = Some (toString (Int z)) ->
            shown (session c events sh)
            = Int (z + Z.of_nat (changes c events))
            /\ getItem (localStorage (session c events sh)) storageKey
               = Some (toString (Int (z + Z.of_nat (changes c events))))).
  { clear. induction events as [|c' rest IH]; intros z sh c Hs Hg;
      cbn [session changes].
    - rewrite Z.add_0_r. auto.
    - destruct (rerender_invariant c c' sh z Hs Hg) as (Hs' & Hg').
      destruct (IH _ _ c' Hs' Hg') as (A & B).
      rewrite A, B.
      replace (z + (if slidersChanged c c' then 1 else 0)
               + Z.of_nat (changes c' rest))%Z
        with (z + Z.of_nat ((if slidersChanged c c' then 1 else 0)
                            + changes c' rest))%Z
        by (destruct (slidersChanged c c'); lia).
      auto. }
  intros Hs Hg. rewrite Z.add_0_r in Hs.
  exact (G 1%Z sh c Hs Hg).
Qed.

(** * Binary64 *)

(** ** The loop over binary64, index by index *)

Lemma binary64_forEach_invariant s p h l i st :
  Binary64.currentCustomers st = Binary64.customersAfter i ->
  Binary64.currentHeadcount st = Binary64.headcountBefore h i ->
  Binary64.data (Binary64.forEach s p h l i st)
  = Binary64.data st
    ++ map (fun mi => Binary64.recordAt s p h (fst mi) (snd mi))
           (combine l (seq i (List.length l)))
  /\ Binary64.currentCustomers (Binary64.forEach s p h l i st)
     = Binary64.customersAfter (i + List.length l)
  /\ Binary64.currentHeadcount (Binary64.forEach s p h l i st)
     = Binary64.headcountBefore h (i + List.length l).
Proof.
  revert i st; induction l as [|m l IH]; intros i st Hc Hh;
    cbn [Binary64.forEach List.length seq combine map].
  - rewrite app_nil_r, Nat.add_0_r. auto.
  - assert (Hc1 : Binary64.currentCustomers (Binary64.forEach_body s p h st m i)
                  = Binary64.customersAfter (S i)).
    { cbn [Binary64.forEach_body Binary64.currentCustomers
           Binary64.customersAfter]. now rewrite Hc. }
    assert (Hh1 : Binary64.currentHeadcount (Binary64.forEach_body s p h st m i)
                  = Binary64.headcountBefore h (S i)).
    { cbn [Binary64.forEach_body Binary64.currentHeadcount
           Binary64.headcountBefore]. now rewrite Hh. }
    destruct (IH (S i) (Binary64.forEach_body s p h st m i) Hc1 Hh1)
      as (Hd & Hc' & Hh').
    rewrite Hd, Hc', Hh', Nat.add_succ_r. repeat split.
    cbn [Binary64.forEach_body Binary64.data fst snd]. rewrite <- app_assoc.
    cbn [app]. do 2 f_equal.
    unfold Binary64.recordAt.
    cbn [Binary64.customersAfter Binary64.headcountBefore].
    rewrite Hc, Hh. reflexivity.
Qed.

Lemma binary64_records s p h :
  Binary64.generateForecast s p h
  = map (fun mi => Binary64.recordAt s p h (fst mi) (snd mi))
        (combine months (seq 0 12)).
Proof.
  unfold Binary64.generateForecast.
  destruct (binary64_forEach_invariant s p h months 0 (Binary64.loopStart h)
              eq_refl eq_refl) as (Hd & _).
  exact Hd.
Qed.

Lemma binary64_loopAfter s p h n :
  (n <= 12)%nat ->
  Binary64.currentCustomers (Binary64.loopAfter s p h n)
  = Binary64.customersAfter n
  /\ Binary64.currentHeadcount (Binary64.loopAfter s p h n)
     = Binary64.headcountBefore h n.
Proof.
  intros Hn. unfold Binary64.loopAfter.
  destruct (binary64_forEach_invariant s p h (firstn n months) 0
              (Binary64.loopStart h) eq_refl eq_refl) as (_ & Hc & Hh).
  assert (Hl : List.length (firstn n months) = n).
  { rewrite length_firstn. change (List.length months) with 12%nat. lia. }
  rewrite Hl in Hc, Hh. cbn [Nat.add] in Hc, Hh. auto.
Qed.

Lemma binary64_customers n :
  (n <= 12)%nat ->
  Binary64.customersAfter n
  = nth n (100%float :: Binary64.customerCounts) 0%float.
Proof.
  intros Hn.
  do 13 (destruct n as [|n]; [vm_compute; reflexivity | ]).
  lia.
Qed.

Lemma binary64_length s p h :
  List.length (Binary64.generateForecast s p h) = 12%nat.
Proof. rewrite binary64_records. reflexivity. Qed.

Lemma binary64_months s p h :
  map Binary64.month (Binary64.generateForecast s p h) = months.
Proof. rewrite binary64_records. reflexivity. Qed.

Lemma binary64_headcount_list s p h :
  map Binary64.headcount (Binary64.generateForecast s p h)
  = Binary64.headcountsOf h.
Proof. rewrite binary64_records. reflexivity. Qed.

Lemma binary64_revenue_list s p h :
  map Binary64.revenue (Binary64.generateForecast s p h)
  = Binary64.revenuesOf p.
Proof.
  rewrite binary64_records.
  cbn [map combine seq months fst snd Binary64.recordAt Binary64.revenue].
  rewrite !binary64_customers by lia. reflexivity.
Qed.

Lemma binary64_expenses_list s p h :
  map Binary64.expenses (Binary64.generateForecast s p h)
  = Binary64.expensesOf s h.
Proof. rewrite binary64_records. reflexivity. Qed.

Lemma binary64_cashFlow_list s p h :
  map Binary64.cashFlow (Binary64.generateForecast s p h)
  = Binary64.zipSub (Binary64.revenuesOf p) (Binary64.expensesOf s h).
Proof.
  rewrite binary64_records.
  cbn [map combine seq months fst snd Binary64.recordAt Binary64.cashFlow].
  rewrite !binary64_customers by lia. reflexivity.
Qed.

Lemma binary64_reduce (f : Binary64.ForecastData -> float) l a :
  fold_left (fun sum item => PrimFloat.add sum (f item)) l a
  = fold_left PrimFloat.add (map f l) a.
Proof.
  revert a; induction l as [|x l IH]; intros a; cbn [fold_left map].
  - reflexivity.
  - apply IH.
Qed.

Lemma binary64_totalRevenue s p h :
  Binary64.totalRevenue (Binary64.generateForecast s p h)
  = Binary64.sum (Binary64.revenuesOf p).
Proof.
  unfold Binary64.totalRevenue, Binary64.sum.
  now rewrite binary64_reduce, binary64_revenue_list.
Qed.

Lemma binary64_totalExpenses s p h :
  Binary64.totalExpenses (Binary64.generateForecast s p h)
  = Binary64.sum (Binary64.expensesOf s h).
Proof.
  unfold Binary64.totalExpenses, Binary64.sum.
  now rewrite binary64_reduce, binary64_expenses_list.
Qed.

Lemma binary64_totalCashFlow s p h :
  Binary64.totalCashFlow (Binary64.generateForecast s p h)
  = Binary64.sum (Binary64.zipSub (Binary64.revenuesOf p)
                                  (Binary64.expensesOf s h)).
Proof.
  unfold Binary64.totalCashFlow, Binary64.sum.
  now rewrite binary64_reduce, binary64_cashFlow_list.
Qed.

(** ** Ranges of integers *)

Lemma In_Zrange lo hi z : (lo <= z <= hi)%Z -> In z (Zrange lo hi).
Proof.
  intros H. unfold Zrange. apply in_map_iff.
  exists (Z.to_nat (z - lo)). split; [lia | ].
  apply in_seq. lia.
Qed.

Lemma In_sliderPositions min max step z :
  (0 < step)%Z -> onSliderZ min max step z = true ->
  In z (sliderPositions min max step).
Proof.
  intros Hstep H. unfold onSliderZ in H.
  apply andb_prop in H. destruct H as [H Hm].
  apply andb_prop in H. destruct H as [Hlo Hhi].
  apply Z.leb_le in Hlo, Hhi. apply Z.eqb_eq in Hm.
  unfold sliderPositions. apply in_map_iff.
  exists (Z.to_nat ((z - min) / step)).
  assert (Hq : (0 <= (z - min) / step)%Z) by (apply Z.div_pos; lia).
  assert (Hle : ((z - min) / step <= (max - min) / step)%Z)
    by (apply Z.div_le_mono; lia).
  split.
  - rewrite Z2Nat.id by exact Hq.
    pose proof (Z.div_mod (z - min) step ltac:(lia)). lia.
  - apply in_seq. lia.
Qed.

(** ** Head count in binary64 *)

Lemma headcountCheck_holds :
  forallb Binary64.headcountCheck (Zrange 0 1000) = true.
Proof. vm_compute. reflexivity. Qed.

(** C1, as stated, fails: the initial head count 7000000000000004 is a
    non-negative integer that binary64 holds exactly, but the product by
    [0.2] rounds up, so the step is 1400000000000001 instead of
    [floor (7000000000000004 / 5) = 1400000000000000], and the third rise,
    rounded once more, is 1400000000000002. *)
#[warnings="-inexact-float"]
Lemma headcount_schedule_fails_at_7000000000000004 :
  let h := 7000000000000004%float in
  let step := Binary64.Math_floor (PrimFloat.mul h 0.2) in
  let hc := map Binary64.headcount (Binary64.generateForecast 50000 100 h) in
  h = Binary64.of_Z 7000000000000004
  /\ step = 1400000000000001%float
  /\ Binary64.of_Z (7000000000000004 / 5) = 1400000000000000%float
  /\ PrimFloat.sub (nth 3 hc 0%float) (nth 2 hc 0%float)
     = 1400000000000001%float
  /\ PrimFloat.sub (nth 9 hc 0%float) (nth 8 hc 0%float)
     = 1400000000000002%float
  /\ PrimFloat.eqb (PrimFloat.sub (nth 9 hc 0%float) (nth 8 hc 0%float))
       step = false.
Proof.
  vm_compute. repeat (split; [reflexivity | ]). reflexivity.
Qed.

(** C1, amended: for every integer initial head count [z] from 0 to 1000
    (the slider offers 1 to 50) and all spending and price, the step
    [Math.floor(z * 0.2)] is [z / 5], the record at index [i] shows
    [z + (i / 3) * (z / 5)], the head counts never decrease, rise by exactly
    the step at indices 3, 6 and 9 and are unchanged at every other index.
    For [z = 10] they are 10,10,10,12,12,12,14,14,14,16,16,16. *)
#[warnings="-inexact-float"]
Theorem headcount_schedule_binary64 (s p : float) (z : Z) :
  (0 <= z <= 1000)%Z ->
  List.length (Binary64.generateForecast s p (Binary64.of_Z z)) = 12%nat
  /\ PrimFloat.eqb (Binary64.Math_floor (PrimFloat.mul (Binary64.of_Z z) 0.2))
       (Binary64.of_Z (z / 5)) = true
  /\ (forall i, (i < 12)%nat ->
        PrimFloat.eqb
          (nth i (map Binary64.headcount
                    (Binary64.generateForecast s p (Binary64.of_Z z))) 0%float)
          (Binary64.of_Z (z + Z.of_nat (i / 3) * (z / 5))) = true)
  /\ (forall i, (i < 11)%nat ->
        PrimFloat.leb
          (nth i (map Binary64.headcount
                    (Binary64.generateForecast s p (Binary64.of_Z z))) 0%float)
          (nth (S i) (map Binary64.headcount
                    (Binary64.generateForecast s p (Binary64.of_Z z))) 0%float)
        = true)
  /\ (forall i, (i = 3 \/ i = 6 \/ i = 9)%nat ->
        PrimFloat.eqb
          (PrimFloat.sub
             (nth i (map Binary64.headcount
                    (Binary64.generateForecast s p (Binary64.of_Z z))) 0%float)
             (nth (i - 1) (map Binary64.headcount
                    (Binary64.generateForecast s p (Binary64.of_Z z))) 0%float))
          (Binary64.Math_floor (PrimFloat.mul (Binary64.of_Z z) 0.2))
        = true)
  /\ (forall i, (0 < i < 12)%nat -> i <> 3%nat -> i <> 6%nat -> i <> 9%nat ->
        PrimFloat.eqb
          (nth i (map Binary64.headcount
                    (Binary64.generateForecast s p (Binary64.of_Z z))) 0%float)
          (nth (i - 1) (map Binary64.headcount
                    (Binary64.generateForecast s p (Binary64.of_Z z))) 0%float)
        = true)
  /\ map Binary64.headcount (Binary64.generateForecast s p 10)
     = [10; 10; 10; 12; 12; 12; 14; 14; 14; 16; 16; 16]%float.
Proof.
  intros Hz.
  pose proof headcountCheck_holds as H.
  rewrite forallb_forall in H.
  specialize (H z (In_Zrange 0 1000 z Hz)).
  unfold Binary64.headcountCheck in H. cbv zeta in H.
  apply andb_prop in H. destruct H as [H H5].
  apply andb_prop in H. destruct H as [H H4].
  apply andb_prop in H. destruct H as [H H3].
  apply andb_prop in H. destruct H as [H1 H2].
  rewrite forallb_forall in H2, H3, H4, H5.
  rewrite !binary64_headcount_list.
  split; [apply binary64_length | ].
  split; [exact H1 | ].
  split; [intros i Hi; apply H2, in_seq; lia | ].
  split; [intros i Hi; apply H3, in_seq; lia | ].
  split; [intros i Hi; apply H4; cbn [In]; lia | ].
  split; [intros i Hi N3 N6 N9; apply H5; cbn [In]; lia | ].
  vm_compute. reflexivity.
Qed.

Lemma headcount_schedule_binary64_witness :
  PrimFloat.eqb
    (nth 3 (map Binary64.headcount
              (Binary64.generateForecast 50000 100 (Binary64.of_Z 7))) 0%float)
    (Binary64.of_Z (7 + Z.of_nat (3 / 3) * (7 / 5))) = true.
Proof.
  destruct (headcount_schedule_binary64 50000 100 7 ltac:(lia))
    as (_ & _ & H & _).
  apply (H 3%nat). lia.
Defined.

(** ** Net cash flow in binary64 *)

Lemma reconcileCheck_holds :
  forallb (fun zs =>
    forallb (fun zh =>
      let e := Binary64.expensesOf (Binary64.of_Z zs) (Binary64.of_Z zh) in
      let e' := (e, Binary64.sum e) in
      forallb (fun zr => Binary64.reconcileCheck (snd zr) e')
              Binary64.pricingTable)
      (sliderPositions 1 50 1))
    (sliderPositions 10000 200000 5000) = true.
Proof. vm_compute. reflexivity. Qed.

Lemma In_pricingTable zp :
  onSliderZ 10 1000 10 zp = true ->
  In (zp, (Binary64.revenuesOf (Binary64.of_Z zp),
           Binary64.sum (Binary64.revenuesOf (Binary64.of_Z zp))))
     Binary64.pricingTable.
Proof.
  intros H. unfold Binary64.pricingTable.
  apply (in_map (fun zp => (zp, (Binary64.revenuesOf (Binary64.of_Z zp),
                                Binary64.sum
                                  (Binary64.revenuesOf (Binary64.of_Z zp)))))).
  apply In_sliderPositions; [lia | exact H].
Qed.

(** C4, as stated, fails: with spending 27.3, price 0.1 and head count 0
    the net cash flow computed from the two totals is about -5.68e-14 while
    the twelve cash flows add up to about 1.42e-14. *)
#[warnings="-inexact-float"]
Lemma cashFlow_sum_differs_at_27_3 :
  let l := Binary64.generateForecast 27.3 0.1 0 in
  Binary64.netCashFlow l = (-5.6843418860808015e-14)%float
  /\ Binary64.totalCashFlow l = 1.4210854715202004e-14%float
  /\ PrimFloat.eqb (Binary64.netCashFlow l) (Binary64.totalCashFlow l) = false.
Proof.
  vm_compute. repeat (split; [reflexivity | ]). reflexivity.
Qed.

(** C4, amended: for all numbers the net cash flow is the total revenue
    minus the total expenses, the totals being the sums, taken from 0 and
    from left to right, of the [revenue] and [expenses] fields of the
    twelve records.  At every position of the three sliders this value also
    equals the sum of the twelve [cashFlow] fields. *)
Theorem netCashFlow_reconciles_on_sliders (zs zp zh : Z) :
  onSliderZ 10000 200000 5000 zs = true ->
  onSliderZ 10 1000 10 zp = true ->
  onSliderZ 1 50 1 zh = true ->
  (forall s p h : float,
     List.length (Binary64.generateForecast s p h) = 12%nat
     /\ Binary64.netCashFlow (Binary64.generateForecast s p h)
        = PrimFloat.sub
            (Binary64.totalRevenue (Binary64.generateForecast s p h))
            (Binary64.totalExpenses (Binary64.generateForecast s p h))
     /\ Binary64.totalRevenue (Binary64.generateForecast s p h)
        = fold_left PrimFloat.add
            (map Binary64.revenue (Binary64.generateForecast s p h)) 0%float
     /\ Binary64.totalExpenses (Binary64.generateForecast s p h)
        = fold_left PrimFloat.add
            (map Binary64.expenses (Binary64.generateForecast s p h)) 0%float)
  /\ PrimFloat.eqb
       (Binary64.netCashFlow
          (Binary64.generateForecast (Binary64.of_Z zs) (Binary64.of_Z zp)
             (Binary64.of_Z zh)))
       (fold_left PrimFloat.add
          (map Binary64.cashFlow
             (Binary64.generateForecast (Binary64.of_Z zs) (Binary64.of_Z zp)
                (Binary64.of_Z zh))) 0%float) = true.
Proof.
  intros Hs Hp Hh. split.
  - intros s p h. split; [apply binary64_length | ].
    split; [reflexivity | ].
    split; apply binary64_reduce.
  - pose proof reconcileCheck_holds as H.
    rewrite forallb_forall in H.
    specialize (H zs (In_sliderPositions 10000 200000 5000 zs ltac:(lia) Hs)).
    rewrite forallb_forall in H.
    specialize (H zh (In_sliderPositions 1 50 1 zh ltac:(lia) Hh)).
    cbv zeta in H. rewrite forallb_forall in H.
    specialize (H _ (In_pricingTable zp Hp)).
    unfold Binary64.reconcileCheck in H. cbn [fst snd] in H.
    unfold Binary64.netCashFlow.
    rewrite binary64_totalRevenue, binary64_totalExpenses,
      binary64_cashFlow_list.
    exact H.
Qed.

Lemma netCashFlow_reconciles_on_sliders_witness :
  PrimFloat.eqb
    (Binary64.netCashFlow
       (Binary64.generateForecast (Binary64.of_Z 50000) (Binary64.of_Z 100)
          (Binary64.of_Z 10)))
    (fold_left PrimFloat.add
       (map Binary64.cashFlow
          (Binary64.generateForecast (Binary64.of_Z 50000) (Binary64.of_Z 100)
             (Binary64.of_Z 10))) 0%float) = true.
Proof.
  apply (netCashFlow_reconciles_on_sliders 50000 100 10); reflexivity.
Defined.

(** ** Revenue in binary64 *)

Lemma scalingCheck_holds :
  forallb (fun zp => forallb (fun k => Binary64.scalingCheck zp k)
                             (Zrange 0 100))
          (sliderPositions 10 1000 10) = true.
Proof. vm_compute. reflexivity. Qed.

(** C10, as stated, fails: multiplying the price 0.1 by 3 does not multiply
    the first revenue by 3, and at the price 19.99 the total revenue is not
    3276 times the price. *)
#[warnings="-inexact-float"]
Lemma revenue_scaling_fails_at_0_1 :
  let r := map Binary64.revenue (Binary64.generateForecast 50000 0.1 10) in
  let r3 := map Binary64.revenue
              (Binary64.generateForecast 50000 (PrimFloat.mul 3 0.1) 10) in
  nth 0 r3 0%float = 34.500000000000007%float
  /\ PrimFloat.mul 3 (nth 0 r 0%float) = 34.5%float
  /\ PrimFloat.eqb (nth 0 r3 0%float) (PrimFloat.mul 3 (nth 0 r 0%float))
     = false
  /\ PrimFloat.eqb
       (Binary64.totalRevenue (Binary64.generateForecast 50000 19.99 10))
       (PrimFloat.mul 3276 19.99) = false.
Proof.
  vm_compute. repeat (split; [reflexivity | ]). reflexivity.
Qed.

(** C10, amended: for all numbers the revenue at index [i] is the product
    of the price and the constant [c_i] of the sequence 115, 132, ..., 523,
    whatever spending and head count are.  At every position of the
    pricing slider the total revenue is 3276 times the price, and
    multiplying such a price by an integer [k] from 0 to 100 multiplies
    every revenue and the total revenue by [k]. *)
Theorem revenue_scales_on_sliders (zp k : Z) :
  onSliderZ 10 1000 10 zp = true ->
  (0 <= k <= 100)%Z ->
  (forall s p h : float,
     map Binary64.revenue (Binary64.generateForecast s p h)
     = map (fun c => PrimFloat.mul c p)
         [115; 132; 151; 173; 198; 227; 261; 300; 345; 396; 455; 523]%float
     /\ forall s' h' : float,
          map Binary64.revenue (Binary64.generateForecast s' p h')
          = map Binary64.revenue (Binary64.generateForecast s p h))
  /\ (forall s h : float,
        PrimFloat.eqb
          (Binary64.totalRevenue
             (Binary64.generateForecast s (Binary64.of_Z zp) h))
          (Binary64.of_Z (3276 * zp)) = true
        /\ (forall i, (i < 12)%nat ->
              PrimFloat.eqb
                (nth i (map Binary64.revenue
                          (Binary64.generateForecast s
                             (PrimFloat.mul (Binary64.of_Z k)
                                (Binary64.of_Z zp)) h)) 0%float)
                (PrimFloat.mul (Binary64.of_Z k)
                   (nth i (map Binary64.revenue
                             (Binary64.generateForecast s
                                (Binary64.of_Z zp) h)) 0%float)) = true)
        /\ PrimFloat.eqb
             (Binary64.totalRevenue
                (Binary64.generateForecast s
                   (PrimFloat.mul (Binary64.of_Z k) (Binary64.of_Z zp)) h))
             (PrimFloat.mul (Binary64.of_Z k)
                (Binary64.totalRevenue
                   (Binary64.generateForecast s (Binary64.of_Z zp) h)))
           = true).
Proof.
  intros Hp Hk. split.
  - intros s p h. split; [apply binary64_revenue_list | ].
    intros s' h'. now rewrite !binary64_revenue_list.
  - intros s h.
    pose proof scalingCheck_holds as H.
    rewrite forallb_forall in H.
    specialize (H zp (In_sliderPositions 10 1000 10 zp ltac:(lia) Hp)).
    rewrite forallb_forall in H.
    specialize (H k (In_Zrange 0 100 k Hk)).
    unfold Binary64.scalingCheck in H. cbv zeta in H.
    apply andb_prop in H. destruct H as [H H3].
    apply andb_prop in H. destruct H as [H1 H2].
    rewrite forallb_forall in H1.
    rewrite !binary64_totalRevenue, !binary64_revenue_list.
    split; [exact H3 | split; [ | exact H2]].
    intros i Hi. apply H1, in_seq. lia.
Qed.

Lemma revenue_scales_on_sliders_witness :
  PrimFloat.eqb
    (Binary64.totalRevenue
       (Binary64.generateForecast 50000
          (PrimFloat.mul (Binary64.of_Z 3) (Binary64.of_Z 100)) 10))
    (PrimFloat.mul (Binary64.of_Z 3)
       (Binary64.totalRevenue
          (Binary64.generateForecast 50000 (Binary64.of_Z 100) 10))) = true.
Proof.
  destruct (revenue_scales_on_sliders 100 3 eq_refl ltac:(lia)) as (_ & H).
  destruct (H 50000%float 10%float) as (_ & _ & H3). exact H3.
Defined.

(** ** Growth of the customer base *)

Lemma customers_increase_exact n :
  (n < 12)%nat -> customersAfter n < customersAfter (S n).
Proof.
  intros Hn.
  do 12 (destruct n as [|n]; [vm_compute; reflexivity | ]).
  lia.
Qed.

Lemma customers_increase_binary64 n :
  (n < 12)%nat ->
  PrimFloat.ltb (Binary64.customersAfter n) (Binary64.customersAfter (S n))
  = true.
Proof.
  intros Hn.
  do 12 (destruct n as [|n]; [vm_compute; reflexivity | ]).
  lia.
Qed.

(** C6: the customer count of the loop starts at 100, is raised by
    [Math.floor(customers * 0.15)] in each of the twelve callbacks, and is
    strictly larger after every one of them than before, whatever the three
    inputs are: it runs through 100, 115, 132, 151, 173, 198, 227, 261, 300,
    345, 396, 455, 523.  This holds with binary64 numbers as with exact
    ones; 0.15 is the only growth rate the code has. *)
Theorem customers_strictly_increasing (n : nat) :
  (n < 12)%nat ->
  (forall s p h : float,
     PrimFloat.ltb
       (Binary64.currentCustomers (Binary64.loopAfter s p h n))
       (Binary64.currentCustomers (Binary64.loopAfter s p h (S n))) = true
     /\ Binary64.currentCustomers (Binary64.loopAfter s p h n)
        = nth n [100; 115; 132; 151; 173; 198; 227; 261; 300; 345; 396; 455;
                 523]%float 0%float
     /\ Binary64.currentCustomers (Binary64.loopAfter s p h (S n))
        = PrimFloat.add
            (Binary64.currentCustomers (Binary64.loopAfter s p h n))
            (Binary64.Math_floor
               (PrimFloat.mul
                  (Binary64.currentCustomers (Binary64.loopAfter s p h n))
                  Binary64.growthRate)))
  /\ (forall s p h : number,
        currentCustomers (loopAfter s p h n)
        < currentCustomers (loopAfter s p h (S n))).
Proof.
  intros Hn. split.
  - intros s p h.
    destruct (binary64_loopAfter s p h n ltac:(lia)) as (-> & _).
    destruct (binary64_loopAfter s p h (S n) ltac:(lia)) as (-> & _).
    split; [now apply customers_increase_binary64 | ].
    split; [apply binary64_customers; lia | reflexivity].
  - intros s p h.
    destruct (loopAfter_spec s p h n ltac:(lia)) as (_ & -> & _).
    destruct (loopAfter_spec s p h (S n) ltac:(lia)) as (_ & -> & _).
    now apply customers_increase_exact.
Qed.

Lemma customers_strictly_increasing_witness :
  PrimFloat.ltb
    (Binary64.currentCustomers (Binary64.loopAfter 50000 100 10 3))
    (Binary64.currentCustomers (Binary64.loopAfter 50000 100 10 4)) = true
  /\ currentCustomers (loopAfter 50000 100 10 3)
     < currentCustomers (loopAfter 50000 100 10 4).
Proof.
  destruct (customers_strictly_increasing 3 ltac:(lia)) as (B & E).
  destruct (B 50000%float 100%float 10%float) as (L & _).
  split; [exact L | apply E].
Defined.

(** ** Completion of the loop *)

Lemma push_normal l x :
  (Z.of_nat (List.length l) < 2 ^ 32 - 1)%Z ->
  Binary64.push l x = Normal (l ++ [x]).
Proof.
  intros H. unfold Binary64.push.
  apply Z.ltb_lt in H. now rewrite H.
Qed.

Lemma forEach_body_completion_normal s p h st m i :
  (Z.of_nat (List.length (Binary64.data st)) < 2 ^ 32 - 1)%Z ->
  Binary64.forEach_body_completion s p h st m i
  = Normal (Binary64.forEach_body s p h st m i).
Proof.
  intros H. unfold Binary64.forEach_body_completion. cbv zeta.
  rewrite (push_normal _ _ H). reflexivity.
Qed.

Lemma forEach_body_length s p h st m i :
  List.length (Binary64.data (Binary64.forEach_body s p h st m i))
  = S (List.length (Binary64.data st)).
Proof.
  cbn [Binary64.forEach_body Binary64.data].
  rewrite length_app. cbn [List.length]. lia.
Qed.

Lemma forEach_completion_normal s p h l i st :
  (Z.of_nat (List.length (Binary64.data st) + List.length l) < 2 ^ 32)%Z ->
  Binary64.forEach_completion s p h l i st
  = Normal (Binary64.forEach s p h l i st).
Proof.
  revert i st; induction l as [|m l IH]; intros i st H;
    cbn [Binary64.forEach_completion Binary64.forEach].
  - reflexivity.
  - cbn [List.length] in H.
    rewrite forEach_body_completion_normal by lia.
    apply IH. rewrite forEach_body_length. lia.
Qed.

(** C7: for all binary64 values of spending, price and head count (zero,
    negative, NaN and infinite ones included) the loop completes normally:
    the one step that can throw, the [push], never does, because the array
    holds at most eleven records when it is called; the result is the
    list of twelve records labelled Jan to Dec.  With spending 0 and head
    count 0 (and any price) the twelve records are produced and every
    [expenses] field is 0. *)
Theorem generateForecast_never_throws (s p h : float) :
  Binary64.generateForecast_completion s p h
  = Normal (Binary64.generateForecast s p h)
  /\ List.length (Binary64.generateForecast s p h) = 12%nat
  /\ map Binary64.month (Binary64.generateForecast s p h)
     = ["Jan"; "Feb"; "Mar"; "Apr"; "May"; "Jun";
        "Jul"; "Aug"; "Sep"; "Oct"; "Nov"; "Dec"]%string
  /\ List.length (Binary64.generateForecast 0 p 0) = 12%nat
  /\ map Binary64.expenses (Binary64.generateForecast 0 p 0)
     = [0; 0; 0; 0; 0; 0; 0; 0; 0; 0; 0; 0]%float.
Proof.
  split.
  - unfold Binary64.generateForecast_completion, Binary64.generateForecast.
    rewrite forEach_completion_normal; [reflexivity | ].
    cbn [Binary64.loopStart Binary64.data List.length].
    change (List.length months) with 12%nat. reflexivity.
  - split; [apply binary64_length | ].
    split; [apply binary64_months | ].
    split; [apply binary64_length | ].
    rewrite binary64_expenses_list. vm_compute. reflexivity.
Qed.

(** ** The aggregates on the sliders, in binary64 *)

Lemma expensesCheck_holds :
  forallb (fun zs => forallb (fun zh => Binary64.expensesCheck zs zh)
                             (sliderPositions 1 50 1))
          (sliderPositions 10000 200000 5000) = true.
Proof. vm_compute. reflexivity. Qed.

Lemma expensesCheck_on_sliders zs zh :
  onSliderZ 10000 200000 5000 zs = true ->
  onSliderZ 1 50 1 zh = true ->
  Binary64.expensesCheck zs zh = true.
Proof.
  intros Hs Hh. pose proof expensesCheck_holds as H.
  rewrite forallb_forall in H.
  specialize (H zs (In_sliderPositions 10000 200000 5000 zs ltac:(lia) Hs)).
  rewrite forallb_forall in H.
  exact (H zh (In_sliderPositions 1 50 1 zh ltac:(lia) Hh)).
Qed.

(** X1: at every position of the spending and head-count sliders, and for
    any price, the year's expenses are exactly the integer
    [12 * spending + 5000 * (12 * hiring + 15 * (hiring / 5))] and the
    monthly burn is exactly [spending + 5000 * hiring + 6250 * (hiring / 5)]. *)
Theorem totalExpenses_on_sliders (zs zh : Z) (p : float) :
  onSliderZ 10000 200000 5000 zs = true ->
  onSliderZ 1 50 1 zh = true ->
  PrimFloat.eqb
    (Binary64.totalExpenses
       (Binary64.generateForecast (Binary64.of_Z zs) p (Binary64.of_Z zh)))
    (Binary64.of_Z (12 * zs + 5000 * (12 * zh + 15 * (zh / 5)))) = true
  /\ PrimFloat.eqb
       (Binary64.burnRate
          (Binary64.generateForecast (Binary64.of_Z zs) p (Binary64.of_Z zh)))
       (Binary64.of_Z (zs + 5000 * zh + 6250 * (zh / 5))) = true.
Proof.
  intros Hs Hh. pose proof (expensesCheck_on_sliders zs zh Hs Hh) as H.
  unfold Binary64.expensesCheck in H. cbv zeta in H.
  apply andb_prop in H. destruct H as [H _].
  apply andb_prop in H. destruct H as [H _].
  apply andb_prop in H. destruct H as [H _].
  apply andb_prop in H. destruct H as [H1 H2].
  unfold Binary64.burnRate. rewrite binary64_totalExpenses.
  replace (12 * zs + 5000 * (12 * zh + 15 * (zh / 5)))%Z
    with (Binary64.yearCost zs zh) by (unfold Binary64.yearCost; lia).
  split; assumption.
Qed.

Lemma totalExpenses_on_sliders_witness :
  PrimFloat.eqb
    (Binary64.totalExpenses
       (Binary64.generateForecast (Binary64.of_Z 50000) 100
          (Binary64.of_Z 10)))
    (Binary64.of_Z (12 * 50000 + 5000 * (12 * 10 + 15 * (10 / 5)))) = true.
Proof.
  apply (totalExpenses_on_sliders 50000 10 100%float); reflexivity.
Defined.

(** X9: at every position of the spending and head-count sliders the
    twelve records show [12 * hiring + 18 * (hiring / 5)] person-months,
    while the expenses above twelve times the spending pay 5000 for only
    [12 * hiring + 15 * (hiring / 5)] of them: every hire is shown in the
    month it happens and paid from the next month on. *)
Theorem payroll_lags_headcount_on_sliders (zs zh : Z) (p : float) :
  onSliderZ 10000 200000 5000 zs = true ->
  onSliderZ 1 50 1 zh = true ->
  PrimFloat.eqb
    (fold_left PrimFloat.add
       (map Binary64.headcount
          (Binary64.generateForecast (Binary64.of_Z zs) p (Binary64.of_Z zh)))
       0%float)
    (Binary64.of_Z (12 * zh + 18 * (zh / 5))) = true
  /\ PrimFloat.eqb
       (PrimFloat.sub
          (Binary64.totalExpenses
             (Binary64.generateForecast (Binary64.of_Z zs) p
                (Binary64.of_Z zh)))
          (PrimFloat.mul 12 (Binary64.of_Z zs)))
       (Binary64.of_Z (5000 * (12 * zh + 15 * (zh / 5)))) = true
  /\ PrimFloat.eqb
       (PrimFloat.sub
          (PrimFloat.mul 5000
             (fold_left PrimFloat.add
                (map Binary64.headcount
                   (Binary64.generateForecast (Binary64.of_Z zs) p
                      (Binary64.of_Z zh))) 0%float))
          (PrimFloat.sub
             (Binary64.totalExpenses
                (Binary64.generateForecast (Binary64.of_Z zs) p
                   (Binary64.of_Z zh)))
             (PrimFloat.mul 12 (Binary64.of_Z zs))))
       (Binary64.of_Z (15000 * (zh / 5))) = true.
Proof.
  intros Hs Hh. pose proof (expensesCheck_on_sliders zs zh Hs Hh) as H.
  unfold Binary64.expensesCheck in H. cbv zeta in H.
  apply andb_prop in H. destruct H as [H H5].
  apply andb_prop in H. destruct H as [H H4].
  apply andb_prop in H. destruct H as [_ H3].
  rewrite binary64_totalExpenses, binary64_headcount_list.
  split; [exact H3 | split; [exact H4 | exact H5]].
Qed.

Lemma payroll_lags_headcount_on_sliders_witness :
  PrimFloat.eqb
    (fold_left PrimFloat.add
       (map Binary64.headcount
          (Binary64.generateForecast (Binary64.of_Z 50000) 100
             (Binary64.of_Z 10))) 0%float)
    (Binary64.of_Z (12 * 10 + 18 * (10 / 5))) = true.
Proof.
  apply (payroll_lags_headcount_on_sliders 50000 10 100%float); reflexivity.
Defined.

Lemma netCheck_holds :
  forallb (fun zr => PrimFloat.eqb (snd zr) (Binary64.of_Z (fst zr)))
          Binary64.pricingTotals
  && forallb (fun zs =>
       forallb (fun zh =>
         let se := Binary64.sum (Binary64.expensesOf (Binary64.of_Z zs)
                                                     (Binary64.of_Z zh)) in
         let cost := Binary64.yearCost zs zh in
         PrimFloat.eqb se (Binary64.of_Z cost)
         && forallb (fun zr => Binary64.netCheck zr cost se)
                    Binary64.pricingTotals)
         (sliderPositions 1 50 1))
       (sliderPositions 10000 200000 5000) = true.
Proof. vm_compute. reflexivity. Qed.

Lemma In_pricingTotals zp :
  onSliderZ 10 1000 10 zp = true ->
  In ((3276 * zp)%Z,
      Binary64.sum (Binary64.revenuesOf (Binary64.of_Z zp)))
     Binary64.pricingTotals.
Proof.
  intros H. unfold Binary64.pricingTotals.
  apply (in_map (fun zp => ((3276 * zp)%Z,
                            Binary64.sum
                              (Binary64.revenuesOf (Binary64.of_Z zp))))).
  apply In_sliderPositions; [lia | exact H].
Qed.

(** X2: at every position of the three sliders the total revenue is
    exactly [3276 * pricing] and the total expenses exactly the year's
    cost [12 * spending + 60000 * hiring + 75000 * (hiring / 5)], and the
    summary shows the net cash flow as ['positive'] exactly when the
    revenue exceeds the cost, as ['negative'] otherwise (also when they
    are equal).  Off the sliders the sign can be lost to rounding: at
    spending 27.3, price 0.1 and head count 0 the class is ['negative']. *)
#[warnings="-inexact-float"]
Theorem netCashFlowClass_on_sliders (zs zp zh : Z) :
  onSliderZ 10000 200000 5000 zs = true ->
  onSliderZ 10 1000 10 zp = true ->
  onSliderZ 1 50 1 zh = true ->
  PrimFloat.eqb
    (Binary64.totalRevenue
       (Binary64.generateForecast (Binary64.of_Z zs) (Binary64.of_Z zp)
          (Binary64.of_Z zh)))
    (Binary64.of_Z (3276 * zp)) = true
  /\ PrimFloat.eqb
       (Binary64.totalExpenses
          (Binary64.generateForecast (Binary64.of_Z zs) (Binary64.of_Z zp)
             (Binary64.of_Z zh)))
       (Binary64.of_Z (12 * zs + 60000 * zh + 75000 * (zh / 5))) = true
  /\ (Binary64.netCashFlowClass
        (Binary64.generateForecast (Binary64.of_Z zs) (Binary64.of_Z zp)
           (Binary64.of_Z zh)) = "positive"%string
      <-> (12 * zs + 60000 * zh + 75000 * (zh / 5) < 3276 * zp)%Z)
  /\ (Binary64.netCashFlowClass
        (Binary64.generateForecast (Binary64.of_Z zs) (Binary64.of_Z zp)
           (Binary64.of_Z zh)) = "negative"%string
      <-> (3276 * zp <= 12 * zs + 60000 * zh + 75000 * (zh / 5))%Z)
  /\ Binary64.netCashFlowClass (Binary64.generateForecast 27.3 0.1 0)
     = "negative"%string.
Proof.
  intros Hs Hp Hh. pose proof netCheck_holds as H.
  apply andb_prop in H. destruct H as [HR H].
  rewrite forallb_forall in HR, H.
  specialize (HR _ (In_pricingTotals zp Hp)). cbn [fst snd] in HR.
  specialize (H zs (In_sliderPositions 10000 200000 5000 zs ltac:(lia) Hs)).
  rewrite forallb_forall in H.
  specialize (H zh (In_sliderPositions 1 50 1 zh ltac:(lia) Hh)).
  cbv zeta in H. apply andb_prop in H. destruct H as [HE H].
  rewrite forallb_forall in H.
  specialize (H _ (In_pricingTotals zp Hp)).
  unfold Binary64.netCheck in H. cbn [fst snd] in H.
  unfold Binary64.yearCost in HE, H.
  unfold Binary64.netCashFlowClass, Binary64.netCashFlow.
  rewrite binary64_totalRevenue, binary64_totalExpenses.
  split; [exact HR | split; [exact HE | ]].
  apply Bool.eqb_prop in H.
  split; [ | split].
  - rewrite H.
    destruct (Z.ltb_spec (12 * zs + 60000 * zh + 75000 * (zh / 5))
                         (3276 * zp)) as [L | L].
    + split; [intros _; exact L | reflexivity].
    + split; [discriminate | lia].
  - rewrite H.
    destruct (Z.ltb_spec (12 * zs + 60000 * zh + 75000 * (zh / 5))
                         (3276 * zp)) as [L | L].
    + split; [discriminate | lia].
    + split; [intros _; exact L | reflexivity].
  - vm_compute. reflexivity.
Qed.

Lemma netCashFlowClass_on_sliders_witness :
  Binary64.netCashFlowClass
    (Binary64.generateForecast (Binary64.of_Z 50000) (Binary64.of_Z 100)
       (Binary64.of_Z 10)) = "negative"%string.
Proof.
  destruct (netCashFlowClass_on_sliders 50000 100 10 eq_refl eq_refl eq_refl)
    as (_ & _ & _ & H & _).
  apply H. vm_compute. discriminate.
Defined.

(** ** Revenue and head count over ranges of integers, in binary64 *)

Lemma growthCheck_holds :
  forallb Binary64.growthCheck (Zrange (-1000) 1000) = true.
Proof. vm_compute. reflexivity. Qed.

(** X4: for every integer price from -1000 to 1000 (the slider offers 10
    to 1000) and all spending and head count, the revenue rises from one
    month to the next exactly when the price is positive and stays the same
    exactly when the price is 0.  The range matters: at the price 1e308
    every revenue is [Infinity] and none rises. *)
#[warnings="-inexact-float"]
Theorem revenue_grows_on_integer_prices (s h : float) (zp : Z) (i : nat) :
  (-1000 <= zp <= 1000)%Z ->
  (i < 11)%nat ->
  (PrimFloat.ltb
     (nth i (map Binary64.revenue
               (Binary64.generateForecast s (Binary64.of_Z zp) h)) 0%float)
     (nth (S i) (map Binary64.revenue
               (Binary64.generateForecast s (Binary64.of_Z zp) h)) 0%float)
   = true <-> (0 < zp)%Z)
  /\ (PrimFloat.eqb
        (nth i (map Binary64.revenue
                  (Binary64.generateForecast s (Binary64.of_Z zp) h)) 0%float)
        (nth (S i) (map Binary64.revenue
                  (Binary64.generateForecast s (Binary64.of_Z zp) h)) 0%float)
      = true <-> zp = 0%Z)
  /\ map Binary64.revenue (Binary64.generateForecast s 1e308 h)
     = [infinity; infinity; infinity; infinity; infinity; infinity;
        infinity; infinity; infinity; infinity; infinity; infinity]%float.
Proof.
  intros Hp Hi. pose proof growthCheck_holds as H.
  rewrite forallb_forall in H.
  specialize (H zp (In_Zrange (-1000) 1000 zp Hp)).
  unfold Binary64.growthCheck in H. cbv zeta in H.
  rewrite forallb_forall in H.
  specialize (H i ltac:(apply in_seq; lia)).
  apply andb_prop in H. destruct H as [H1 H2].
  apply Bool.eqb_prop in H1, H2.
  rewrite !binary64_revenue_list.
  split; [ | split].
  - rewrite H1. apply Z.ltb_lt.
  - rewrite H2. apply Z.eqb_eq.
  - vm_compute. reflexivity.
Qed.

Lemma revenue_grows_on_integer_prices_witness :
  PrimFloat.ltb
    (nth 2 (map Binary64.revenue
              (Binary64.generateForecast 50000 (Binary64.of_Z 100) 10))
       0%float)
    (nth 3 (map Binary64.revenue
              (Binary64.generateForecast 50000 (Binary64.of_Z 100) 10))
       0%float) = true.
Proof.
  destruct (revenue_grows_on_integer_prices 50000 10 100 2
              ltac:(lia) ltac:(lia)) as (H & _).
  apply H. lia.
Defined.

Lemma yearEndCheck_holds :
  forallb Binary64.yearEndCheck (Zrange 0 1000) = true.
Proof. vm_compute. reflexivity. Qed.

(** X5: for every integer initial head count [z] from 0 to 1000 the last
    record shows [z + 3 * (z / 5)], which is at least [z] and at most
    [1.6 * z].  The range matters: from 7000000000000004 the year ends with
    11200000000000008, more than 1.6 times the initial head count. *)
Theorem year_end_headcount_binary64 (s p : float) (z : Z) :
  (0 <= z <= 1000)%Z ->
  (exists r,
     nth_error (Binary64.generateForecast s p (Binary64.of_Z z)) 11 = Some r
     /\ PrimFloat.eqb (Binary64.headcount r)
          (Binary64.of_Z (z + 3 * (z / 5))) = true)
  /\ (z <= z + 3 * (z / 5))%Z
  /\ (10 * (z + 3 * (z / 5)) <= 16 * z)%Z
  /\ nth 11 (map Binary64.headcount
               (Binary64.generateForecast s p 7000000000000004)) 0%float
     = 11200000000000008%float
  /\ (16 * 7000000000000004 < 10 * 11200000000000008)%Z.
Proof.
  intros Hz. pose proof yearEndCheck_holds as H.
  rewrite forallb_forall in H.
  specialize (H z (In_Zrange 0 1000 z Hz)).
  unfold Binary64.yearEndCheck in H.
  pose proof (Z.div_mod z 5 ltac:(lia)) as D.
  pose proof (Z.mod_pos_bound z 5 ltac:(lia)) as M.
  split; [ | split; [lia | split; [lia | split; [ | lia]]]].
  - pose proof (binary64_headcount_list s p (Binary64.of_Z z)) as L.
    pose proof (binary64_length s p (Binary64.of_Z z)) as N.
    destruct (nth_error (Binary64.generateForecast s p (Binary64.of_Z z)) 11)
      as [r|] eqn:E.
    + exists r. split; [reflexivity | ].
      rewrite <- L in H.
      rewrite (nth_error_nth _ _ _ (map_nth_error Binary64.headcount _ _ E))
        in H.
      exact H.
    + apply nth_error_None in E. lia.
  - rewrite binary64_headcount_list. vm_compute. reflexivity.
Qed.

Lemma year_end_headcount_binary64_witness :
  exists r,
    nth_error (Binary64.generateForecast 50000 100 (Binary64.of_Z 10)) 11
    = Some r
    /\ PrimFloat.eqb (Binary64.headcount r) (Binary64.of_Z (10 + 3 * (10 / 5)))
       = true.
Proof.
  destruct (year_end_headcount_binary64 50000 100 10 ltac:(lia)) as (H & _).
  exact H.
Defined.
